(** * dashboardx: agent adapters, model registry and model router

  A shallow embedding of the Python sources

    - [backend/app/models/base.py], [registry.py], [router.py]
    - [backend/app/agents/base.py], [adapters/n8n_adapter.py]

  and the properties of the specification that concern them.

  Conventions of the embedding.
    - Python [float] values (costs, scores, seconds) are exact rationals
      [Q]; [datetime] values are microseconds on the UTC time line, in [Z].
    - A Python [dict] is an association list in insertion order with
      unique keys; assigning to a key that is present keeps its position.
    - Python objects that the code mutates in place live in the state that
      the operations thread: every stateful method takes the state and
      returns the new one.
    - A call that can raise returns a [result]; [Raise e] is the exception
      escaping the call.  Only exceptions of class [Exception] are
      modelled (the [except Exception] clauses of the sources catch
      exactly those).
    - Strings are byte strings; [lower] and [strip] act on ASCII. *)

From Stdlib Require Import List String Ascii Bool ZArith QArith Lia.
From Stdlib Require Import Sorting.Sorted Sorting.Permutation.
From Stdlib Require Import DecimalString.
Import ListNotations.

Local Open Scope string_scope.
Local Open Scope Z_scope.

Set Implicit Arguments.
Set Warnings "-register-all".

(* ================================================================== *)
(** * Python primitives *)
(* ================================================================== *)

Module Py.

(** An exception object: its class name and [str(e)]. *)
Record exn : Type := Exn { exn_class : string; exn_str : string }.

Inductive result (A : Type) : Type :=
| Ok (a : A)
| Raise (e : exn).
Arguments Ok {A} a.
Arguments Raise {A} e.

Definition bind {A B} (r : result A) (k : A -> result B) : result B :=
  match r with
  | Ok a => k a
  | Raise e => Raise e
  end.

(** [try: body  except Exception as e: handler e] *)
Definition try_except {A} (body : result A) (handler : exn -> result A)
  : result A :=
  match body with
  | Ok a => Ok a
  | Raise e => handler e
  end.

Fixpoint mapM {A B} (f : A -> result B) (l : list A) : result (list B) :=
  match l with
  | [] => Ok []
  | x :: xs =>
      bind (f x) (fun y => bind (mapM f xs) (fun ys => Ok (y :: ys)))
  end.

(** ** Dictionaries in insertion order *)

Fixpoint dict_get {V} (d : list (string * V)) (k : string) : option V :=
  match d with
  | [] => None
  | (k', v) :: d' => if String.eqb k' k then Some v else dict_get d' k
  end.

(** [d[k] = v] *)
Fixpoint dict_set {V} (d : list (string * V)) (k : string) (v : V)
  : list (string * V) :=
  match d with
  | [] => [(k, v)]
  | (k', v') :: d' =>
      if String.eqb k' k then (k', v) :: d' else (k', v') :: dict_set d' k v
  end.

Definition dict_values {V} (d : list (string * V)) : list V := map snd d.
Definition dict_keys {V} (d : list (string * V)) : list string := map fst d.

(** [{**d, k: v, ...}]: later bindings win, first positions are kept. *)
Definition dict_update {V} (d extra : list (string * V)) : list (string * V) :=
  fold_left (fun acc kv => dict_set acc (fst kv) (snd kv)) extra d.

(** ** Strings *)

Definition lower_ascii (c : ascii) : ascii :=
  let n := nat_of_ascii c in
  if (andb (65 <=? n) (n <=? 90))%nat then ascii_of_nat (n + 32) else c.

(** [s.lower()] *)
Fixpoint lower (s : string) : string :=
  match s with
  | EmptyString => EmptyString
  | String c s' => String (lower_ascii c) (lower s')
  end.

(** [needle in hay] *)
Fixpoint contains (needle hay : string) : bool :=
  if String.prefix needle hay then true
  else match hay with
       | EmptyString => false
       | String _ hay' => contains needle hay'
       end.

(** The characters [str.strip()] removes: TAB..CR, FS..US and space. *)
Definition is_space (c : ascii) : bool :=
  let n := nat_of_ascii c in
  (orb (andb (9 <=? n) (n <=? 13)) (andb (28 <=? n) (n <=? 32)))%nat.

(** [bool(s.strip())]: some character of [s] is not white space. *)
Fixpoint strip_nonempty (s : string) : bool :=
  match s with
  | EmptyString => false
  | String c s' => if is_space c then strip_nonempty s' else true
  end.

(** [s.split(sep)] for a non-empty [sep]: [cur] is the piece being read,
    [skip] counts the characters of a separator still to be dropped. *)
Fixpoint split_from (sep : string) (s : string) (cur : string) (skip : nat)
  : list string :=
  match s with
  | EmptyString => [cur]
  | String c s' =>
      match skip with
      | S k => split_from sep s' cur k
      | O =>
          if String.prefix sep s
          then cur :: split_from sep s' EmptyString (String.length sep - 1)
          else split_from sep s' (cur ++ String c EmptyString) O
      end
  end.

Definition split (s sep : string) : list string := split_from sep s EmptyString O.

(** ** Numbers *)

(** [min(a, b)] on floats: the first of the smallest. *)
Definition min (a b : Q) : Q := if Qle_bool a b then a else b.

(** [range(n)] *)
Definition range (n : Z) : list Z := map Z.of_nat (seq 0 (Z.to_nat n)).

(** Truth value of an optional number ([None] and [0] are false). *)
Definition truthy_int (o : option Z) : bool :=
  match o with
  | None => false
  | Some n => negb (n =? 0)
  end.

Definition truthy_float (o : option Q) : bool :=
  match o with
  | None => false
  | Some q => negb (Qeq_bool q 0)
  end.

(** Truth value of an optional list ([None] and [[]] are false). *)
Definition truthy_list {A} (o : option (list A)) : bool :=
  match o with
  | None | Some [] => false
  | Some (_ :: _) => true
  end.

(** ** [list.sort(key=...)]: the stable sort *)

Fixpoint insert_by {A} (le : A -> A -> bool) (x : A) (l : list A) : list A :=
  match l with
  | [] => [x]
  | y :: ys => if le x y then x :: y :: ys else y :: insert_by le x ys
  end.

(** An element goes in front of the elements that followed it in the
    input unless one of them is strictly smaller: equal keys keep their
    order. *)
Definition sort_by {A} (le : A -> A -> bool) (l : list A) : list A :=
  fold_right (insert_by le) [] l.

Definition sort_key_float {A} (key : A -> Q) : list A -> list A :=
  sort_by (fun a b => Qle_bool (key a) (key b)).

Definition sort_key_int {A} (key : A -> Z) : list A -> list A :=
  sort_by (fun a b => key a <=? key b).

(** [for key, score in table.items(): if key in name: return score],
    falling through to [default]. *)
Fixpoint first_key_in {V} (table : list (string * V)) (name : string)
  (default : V) : V :=
  match table with
  | [] => default
  | (key, score) :: table' =>
      if contains key name then score else first_key_in table' name default
  end.

(** [str(n)] of an integer. *)
Definition str_int (n : Z) : string := NilZero.string_of_int (Z.to_int n).

(** [sep.join(pieces)] *)
Fixpoint join (sep : string) (pieces : list string) : string :=
  match pieces with
  | [] => EmptyString
  | [piece] => piece
  | piece :: pieces' => piece ++ sep ++ join sep pieces'
  end.

(** The line feed. *)
Definition LF : string := String (ascii_of_nat 10) EmptyString.

End Py.

Import Py.

(* ================================================================== *)
(** * models/base.py *)
(* ================================================================== *)

Module ModelsBase.

Inductive ModelProvider : Type :=
| OPENAI | ANTHROPIC | GOOGLE | COHERE | MISTRAL
| OLLAMA | AZURE | BEDROCK | HUGGINGFACE | CUSTOM.

(** [provider.value] *)
Definition value (p : ModelProvider) : string :=
  match p with
  | OPENAI => "openai"
  | ANTHROPIC => "anthropic"
  | GOOGLE => "google"
  | COHERE => "cohere"
  | MISTRAL => "mistral"
  | OLLAMA => "ollama"
  | AZURE => "azure"
  | BEDROCK => "bedrock"
  | HUGGINGFACE => "huggingface"
  | CUSTOM => "custom"
  end.

Definition ModelProvider_eqb (p q : ModelProvider) : bool :=
  String.eqb (value p) (value q).

(** [p in providers] *)
Definition provider_in (p : ModelProvider) (ps : list ModelProvider) : bool :=
  existsb (ModelProvider_eqb p) ps.

Record ModelCapabilities : Type := {
  supports_streaming : bool;
  supports_function_calling : bool;
  supports_vision : bool;
  supports_json_mode : bool;
  supports_system_messages : bool;
  max_context_length : Z;
  max_output_tokens : Z;
  supports_temperature : bool;
  supports_top_p : bool;
  supports_stop_sequences : bool;
  cost_per_1k_input_tokens : Q;
  cost_per_1k_output_tokens : Q
}.

(** The dataclass with its default field values. *)
Definition default_capabilities : ModelCapabilities := {|
  supports_streaming := true;
  supports_function_calling := false;
  supports_vision := false;
  supports_json_mode := false;
  supports_system_messages := true;
  max_context_length := 4096;
  max_output_tokens := 2048;
  supports_temperature := true;
  supports_top_p := true;
  supports_stop_sequences := true;
  cost_per_1k_input_tokens := 0;
  cost_per_1k_output_tokens := 0
|}.

(** Dataclass [__eq__]: field by field. *)
Definition ModelCapabilities_eqb (a b : ModelCapabilities) : bool :=
  Bool.eqb (supports_streaming a) (supports_streaming b)
  && Bool.eqb (supports_function_calling a) (supports_function_calling b)
  && Bool.eqb (supports_vision a) (supports_vision b)
  && Bool.eqb (supports_json_mode a) (supports_json_mode b)
  && Bool.eqb (supports_system_messages a) (supports_system_messages b)
  && (max_context_length a =? max_context_length b)
  && (max_output_tokens a =? max_output_tokens b)
  && Bool.eqb (supports_temperature a) (supports_temperature b)
  && Bool.eqb (supports_top_p a) (supports_top_p b)
  && Bool.eqb (supports_stop_sequences a) (supports_stop_sequences b)
  && Qeq_bool (cost_per_1k_input_tokens a) (cost_per_1k_input_tokens b)
  && Qeq_bool (cost_per_1k_output_tokens a) (cost_per_1k_output_tokens b).

(** A provider instance, as far as the registry and the router look at
    it: [self.provider] and [self.model_name]. *)
Record BaseModelProvider : Type := {
  provider_of : ModelProvider;
  provider_model_name : string
}.

(** What one [await provider.validate_config()] does: it returns a
    boolean, or an overriding subclass lets an exception escape. *)
Inductive probe : Type :=
| Returns (is_healthy : bool)
| Raises (e : exn).

End ModelsBase.

Import ModelsBase.

(* ================================================================== *)
(** * models/registry.py *)
(* ================================================================== *)

Module ModelRegistry.

Record ModelInfo : Type := {
  provider : ModelProvider;
  model_name : string;
  display_name : string;
  capabilities : ModelCapabilities;
  is_available : bool;
  last_health_check : option Z;
  health_check_failures : Z;
  tags : list string;                  (* Set[str] *)
  metadata : list (string * string)    (* Dict[str, any], string values *)
}.

Definition set_eqb (a b : list string) : bool :=
  forallb (fun x => existsb (String.eqb x) b) a
  && forallb (fun x => existsb (String.eqb x) a) b.

Definition optZ_eqb (a b : option Z) : bool :=
  match a, b with
  | None, None => true
  | Some x, Some y => x =? y
  | _, _ => false
  end.

Definition dict_eqb (a b : list (string * string)) : bool :=
  forallb (fun kv => match dict_get b (fst kv) with
                     | Some v => String.eqb v (snd kv)
                     | None => false
                     end) a
  && (List.length a =? List.length b)%nat.

(** Dataclass [__eq__] of [ModelInfo]. *)
Definition ModelInfo_eqb (a b : ModelInfo) : bool :=
  ModelProvider_eqb (provider a) (provider b)
  && String.eqb (model_name a) (model_name b)
  && String.eqb (display_name a) (display_name b)
  && ModelCapabilities_eqb (capabilities a) (capabilities b)
  && Bool.eqb (is_available a) (is_available b)
  && optZ_eqb (last_health_check a) (last_health_check b)
  && (health_check_failures a =? health_check_failures b)
  && set_eqb (tags a) (tags b)
  && dict_eqb (metadata a) (metadata b).

(** [m in models] *)
Definition model_in (m : ModelInfo) (models : list ModelInfo) : bool :=
  existsb (ModelInfo_eqb m) models.

(** The registry object: [self._models] and [self._providers]. *)
Record t : Type := {
  _models : list (string * ModelInfo);
  _providers : list (string * BaseModelProvider);   (* keyed by provider.value *)
  _health_check_interval : Z
}.

(** [ModelRegistry()] *)
Definition init : t := {|
  _models := [];
  _providers := [];
  _health_check_interval := 300
|}.

Definition with_models (self : t) (models : list (string * ModelInfo)) : t := {|
  _models := models;
  _providers := _providers self;
  _health_check_interval := _health_check_interval self
|}.

(** [f"{provider.value}:{model_name}"] *)
Definition model_id_of (p : ModelProvider) (name : string) : string :=
  value p ++ ":" ++ name.

(** [ModelInfo(provider=..., model_name=..., display_name=...,
    capabilities=..., tags=..., metadata=...)]: the other fields take
    the dataclass defaults. *)
Definition new_ModelInfo (p : ModelProvider) (name display : string)
  (caps : ModelCapabilities) (tgs : list string)
  (meta : list (string * string)) : ModelInfo := {|
  provider := p;
  model_name := name;
  display_name := display;
  capabilities := caps;
  is_available := true;
  last_health_check := None;
  health_check_failures := 0;
  tags := tgs;
  metadata := meta
|}.

Definition register_model (self : t) (p : ModelProvider)
  (name display : string) (caps : ModelCapabilities)
  (tgs : option (list string)) (meta : option (list (string * string))) : t :=
  let model_id := model_id_of p name in
  with_models self
    (dict_set (_models self) model_id
       (new_ModelInfo p name display caps
          (match tgs with Some s => s | None => [] end)     (* tags or set() *)
          (match meta with Some d => d | None => [] end))). (* metadata or {} *)

Definition get_model (self : t) (model_id : string) : option ModelInfo :=
  dict_get (_models self) model_id.

(** [list_models(available_only=True)], the only way the router calls it. *)
Definition list_models (self : t) (available_only : bool) : list ModelInfo :=
  let models := dict_values (_models self) in
  if available_only then filter is_available models else models.

Definition avg_cost (m : ModelInfo) : Q :=
  ((cost_per_1k_input_tokens (capabilities m)
    + cost_per_1k_output_tokens (capabilities m)) / 2)%Q.

Definition cost_sum (m : ModelInfo) : Q :=
  (cost_per_1k_input_tokens (capabilities m)
   + cost_per_1k_output_tokens (capabilities m))%Q.

(** The body of the loop of [find_models_by_capability]: [false] where
    the loop says [continue], [true] where it appends. *)
Definition matches (capability : string) (min_context_length : option Z)
  (max_cost : option Q) (model : ModelInfo) : bool :=
  if negb (is_available model) then false else
  let caps := capabilities model in
  if String.eqb capability "function_calling"
     && negb (supports_function_calling caps) then false else
  if String.eqb capability "vision"
     && negb (supports_vision caps) then false else
  if String.eqb capability "streaming"
     && negb (supports_streaming caps) then false else
  if String.eqb capability "json_mode"
     && negb (supports_json_mode caps) then false else
  if truthy_int min_context_length
     && (max_context_length caps
         <? match min_context_length with Some n => n | None => 0 end)
  then false else
  if truthy_float max_cost
     && negb (Qle_bool (avg_cost model)
                match max_cost with Some c => c | None => 0%Q end)
  then false else
  true.

Definition find_models_by_capability (self : t) (capability : string)
  (min_context_length : option Z) (max_cost : option Q) : list ModelInfo :=
  let matching_models :=
    filter (matches capability min_context_length max_cost)
      (dict_values (_models self)) in
  sort_key_float cost_sum matching_models.

Definition speed_priority : list (string * Z) :=
  [("haiku", 0); ("small", 1); ("mini", 1); ("turbo", 2);
   ("medium", 3); ("large", 4); ("opus", 5); ("ultra", 6)].

Definition get_speed_score (model : ModelInfo) : Z :=
  first_key_in speed_priority (lower (model_name model)) 3.

Definition get_fastest_model (self : t)
  (required_capabilities : option (list string)) : option ModelInfo :=
  let models := dict_values (_models self) in
  let models := filter is_available models in
  let models :=
    if truthy_list required_capabilities then
      fold_left
        (fun models capability =>
           let filtered := find_models_by_capability self capability None None in
           filter (fun m => model_in m filtered) models)
        (match required_capabilities with Some l => l | None => [] end)
        models
    else models in
  match sort_key_int get_speed_score models with
  | [] => None
  | m :: _ => Some m
  end.

Definition set_health (m : ModelInfo) (avail : bool) (last : option Z)
  (failures : Z) : ModelInfo := {|
  provider := provider m;
  model_name := model_name m;
  display_name := display_name m;
  capabilities := capabilities m;
  is_available := avail;
  last_health_check := last;
  health_check_failures := failures;
  tags := tags m;
  metadata := metadata m
|}.

(** [await self.health_check(model_id)].  [outcome] is what the bound
    provider's [validate_config] does when it is awaited and [now] is
    [datetime.utcnow()]; the model object is updated in [self._models]. *)
Definition health_check (self : t) (model_id : string) (outcome : probe)
  (now : Z) : bool * t :=
  match dict_get (_models self) model_id with
  | None => (false, self)
  | Some model =>
      match dict_get (_providers self) (value (provider model)) with
      | None => (true, self)                 (* no instance: skipped *)
      | Some _ =>
          match outcome with
          | Returns is_healthy =>
              (* model.is_available = is_healthy
                 model.last_health_check = datetime.utcnow() *)
              let model1 :=
                set_health model is_healthy (Some now)
                  (health_check_failures model) in
              let model2 :=
                if is_healthy then
                  set_health model1 (is_available model1)
                    (last_health_check model1) 0
                else
                  let model' :=
                    set_health model1 (is_available model1)
                      (last_health_check model1)
                      (health_check_failures model1 + 1) in
                  if 3 <=? health_check_failures model' then
                    set_health model' false (last_health_check model')
                      (health_check_failures model')
                  else model' in
              (is_healthy,
               with_models self (dict_set (_models self) model_id model2))
          | Raises _ =>
              let model' :=
                set_health model (is_available model)
                  (last_health_check model)
                  (health_check_failures model + 1) in
              (false,
               with_models self (dict_set (_models self) model_id model'))
          end
      end
  end.

(** Consecutive health checks of one model, one probe outcome each. *)
Fixpoint health_checks (self : t) (model_id : string)
  (outcomes : list probe) (now : Z) : t :=
  match outcomes with
  | [] => self
  | o :: os =>
      health_checks (snd (health_check self model_id o now)) model_id os now
  end.

(** [a & b] is not empty. *)
Definition tags_meet (a b : list string) : bool :=
  existsb (fun x => existsb (String.eqb x) b) a.

(** [list_models(provider, tags, available_only)] with all its filters. *)
Definition list_models_by (self : t) (provider_filter : option ModelProvider)
  (tags_filter : option (list string)) (available_only : bool)
  : list ModelInfo :=
  let models := dict_values (_models self) in
  let models :=
    match provider_filter with
    | Some p => filter (fun m => ModelProvider_eqb (provider m) p) models
    | None => models
    end in
  let models :=
    if truthy_list tags_filter then
      filter (fun m => tags_meet (tags m)
                         (match tags_filter with Some l => l | None => [] end))
        models
    else models in
  if available_only then filter is_available models else models.

Definition get_cheapest_model (self : t) (min_context_length : option Z)
  (required_capabilities : option (list string)) : option ModelInfo :=
  let models := dict_values (_models self) in
  let models := filter is_available models in
  let models :=
    if truthy_int min_context_length then
      filter (fun m =>
                match min_context_length with Some n => n | None => 0 end
                <=? max_context_length (capabilities m)) models
    else models in
  let models :=
    if truthy_list required_capabilities then
      fold_left
        (fun _ capability => find_models_by_capability self capability None None)
        (match required_capabilities with Some l => l | None => [] end)
        models
    else models in
  match models with
  | [] => None
  | _ =>
      match sort_key_float cost_sum models with
      | [] => None
      | m :: _ => Some m
      end
  end.

End ModelRegistry.

Import ModelRegistry.

(* ================================================================== *)
(** * models/router.py *)
(* ================================================================== *)

(** The file router.py opens with the letter [a] glued to the quotes of
    its module docstring, which is no Python statement: as it stands the
    module does not compile and nothing can import it (see [RouterModule]
    below).  [ModelRouter] embeds the classes and the bodies of the
    methods as they are written in the file, that is, what they do in a
    module that has been made to load. *)

Module ModelRouter.

Inductive RoutingStrategy : Type :=
| COST_OPTIMIZED
| PERFORMANCE_OPTIMIZED
| QUALITY_OPTIMIZED
| BALANCED
| ROUND_ROBIN
| MANUAL.

Record RoutingContext : Type := {
  strategy : RoutingStrategy;
  required_capabilities : list string;     (* None becomes [] in __post_init__ *)
  min_context_length : option Z;
  max_cost_per_1k_tokens : option Q;
  preferred_providers : option (list ModelProvider);
  excluded_providers : option (list ModelProvider);
  manual_model : option string
}.

(** [RoutingContext(strategy=s)] *)
Definition default_context (s : RoutingStrategy) : RoutingContext := {|
  strategy := s;
  required_capabilities := [];
  min_context_length := None;
  max_cost_per_1k_tokens := None;
  preferred_providers := None;
  excluded_providers := None;
  manual_model := None
|}.

(** The router object. *)
Record t : Type := {
  registry : ModelRegistry.t;
  _round_robin_index : Z;
  _provider_cache : list (string * BaseModelProvider)
}.

(** [ModelRouter(registry)] *)
Definition init (reg : ModelRegistry.t) : t := {|
  registry := reg;
  _round_robin_index := 0;
  _provider_cache := []
|}.

Definition unwrap {A} (o : option (list A)) : list A :=
  match o with Some l => l | None => [] end.

(** One round of the loop over [context.required_capabilities]. *)
Definition filter_capability (models : list ModelInfo) (capability : string)
  : list ModelInfo :=
  if String.eqb capability "function_calling" then
    filter (fun m => supports_function_calling (capabilities m)) models
  else if String.eqb capability "vision" then
    filter (fun m => supports_vision (capabilities m)) models
  else if String.eqb capability "streaming" then
    filter (fun m => supports_streaming (capabilities m)) models
  else if String.eqb capability "json_mode" then
    filter (fun m => supports_json_mode (capabilities m)) models
  else models.

Definition _filter_models (self : t) (context : RoutingContext)
  : list ModelInfo :=
  let models := list_models (registry self) true in
  let models :=
    if truthy_list (preferred_providers context) then
      filter (fun m => provider_in (provider m)
                         (unwrap (preferred_providers context))) models
    else models in
  let models :=
    if truthy_list (excluded_providers context) then
      filter (fun m => negb (provider_in (provider m)
                               (unwrap (excluded_providers context)))) models
    else models in
  let models :=
    if truthy_int (min_context_length context) then
      filter (fun m =>
                match min_context_length context with
                | Some n => n <=? max_context_length (capabilities m)
                | None => true
                end) models
    else models in
  let models :=
    if truthy_float (max_cost_per_1k_tokens context) then
      filter (fun m =>
                match max_cost_per_1k_tokens context with
                | Some c => Qle_bool (avg_cost m) c
                | None => true
                end) models
    else models in
  fold_left filter_capability (required_capabilities context) models.

Definition head {A} (l : list A) : option A :=
  match l with
  | [] => None
  | x :: _ => Some x
  end.

Definition _select_manual (self : t) (context : RoutingContext)
  : result (option ModelInfo) :=
  match manual_model context with
  | None | Some "" => Raise (Exn "ValueError" "Manual model not specified")
  | Some model_id => Ok (get_model (registry self) model_id)
  end.

Definition _select_cost_optimized (self : t) (context : RoutingContext)
  : option ModelInfo :=
  let models := _filter_models self context in
  match models with
  | [] => None
  | _ => head (sort_key_float cost_sum models)
  end.

Definition _select_performance_optimized (self : t) (context : RoutingContext)
  : option ModelInfo :=
  let models := _filter_models self context in
  match models with
  | [] => None
  | _ => get_fastest_model (registry self) (Some (required_capabilities context))
  end.

Definition quality_priority : list (string * Z) :=
  [("opus", 0); ("ultra", 0); ("large", 1); ("turbo", 2);
   ("medium", 3); ("small", 4); ("mini", 5); ("haiku", 5)].

Definition get_quality_score (model : ModelInfo) : Z :=
  first_key_in quality_priority (lower (model_name model)) 3.

Definition _select_quality_optimized (self : t) (context : RoutingContext)
  : option ModelInfo :=
  let models := _filter_models self context in
  match models with
  | [] => None
  | _ => head (sort_key_int get_quality_score models)
  end.

Definition quality_map : list (string * Q) :=
  [("opus", 1.0); ("ultra", 1.0); ("large", 0.8);
   ("turbo", 0.7); ("medium", 0.6); ("small", 0.4);
   ("mini", 0.3); ("haiku", 0.3)]%Q.

(** The two terms of [balance_score]. *)
Definition cost_score (model : ModelInfo) : Q :=
  Py.min (avg_cost model / 0.1)%Q 1.0%Q.

Definition quality_score (model : ModelInfo) : Q :=
  first_key_in quality_map (lower (model_name model)) 0.5%Q.

Definition balance_score (model : ModelInfo) : Q :=
  ((0.4 * cost_score model) + (0.6 * (1 - quality_score model)))%Q.

Definition _select_balanced (self : t) (context : RoutingContext)
  : option ModelInfo :=
  let models := _filter_models self context in
  match models with
  | [] => None
  | _ => head (sort_key_float balance_score models)
  end.

(** [models[i]] for an index that is in range. *)
Definition item {A} (l : list A) (i : Z) : option A := nth_error l (Z.to_nat i).

(** Returns the selection and the router with its index advanced. *)
Definition _select_round_robin (self : t) (context : RoutingContext)
  : option ModelInfo * t :=
  let models := _filter_models self context in
  match models with
  | [] => (None, self)
  | _ =>
      let selected :=
        item models (_round_robin_index self mod Z.of_nat (List.length models)) in
      (selected,
       {| registry := registry self;
          _round_robin_index := _round_robin_index self + 1;
          _provider_cache := _provider_cache self |})
  end.

Definition _select_model (self : t) (context : RoutingContext)
  : result (option ModelInfo) * t :=
  match strategy context with
  | MANUAL => (_select_manual self context, self)
  | COST_OPTIMIZED => (Ok (_select_cost_optimized self context), self)
  | PERFORMANCE_OPTIMIZED =>
      (Ok (_select_performance_optimized self context), self)
  | QUALITY_OPTIMIZED => (Ok (_select_quality_optimized self context), self)
  | BALANCED => (Ok (_select_balanced self context), self)
  | ROUND_ROBIN =>
      let (selected, self') := _select_round_robin self context in
      (Ok selected, self')
  end.

(** [n] consecutive calls of [_select_model] with one context: the
    selections in call order and the router afterwards. *)
Fixpoint select_many (n : nat) (self : t) (context : RoutingContext)
  : list (result (option ModelInfo)) * t :=
  match n with
  | O => ([], self)
  | S n' =>
      let (r, self1) := _select_model self context in
      let (rs, self2) := select_many n' self1 context in
      (r :: rs, self2)
  end.

End ModelRouter.

(* ================================================================== *)
(** * models/router.py as a module: loading it *)
(* ================================================================== *)

Module RouterModule.

Import ModelRouter.

(** The double quote character. *)
Definition QUOTE : string := String (ascii_of_nat 34) EmptyString.

(** Line 1 of router.py: the letter [a] and the three quotes that open
    the module docstring. *)
Definition first_line : string := "a" ++ QUOTE ++ QUOTE ++ QUOTE.

(** The prefixes a Python string literal may carry. *)
Definition string_prefixes : list string :=
  ["r"; "u"; "R"; "U"; "f"; "F";
   "fr"; "Fr"; "fR"; "FR"; "rf"; "rF"; "Rf"; "RF";
   "b"; "B"; "br"; "Br"; "bR"; "BR"; "rb"; "rB"; "Rb"; "RB"].

(** The characters of a line before its first quote. *)
Fixpoint before_quote (line : string) : string :=
  match line with
  | EmptyString => EmptyString
  | String c rest =>
      if Ascii.eqb c (ascii_of_nat 34) then EmptyString
      else String c (before_quote rest)
  end.

(** Importing a module whose first line opens its docstring.  What stands
    before the quotes must be nothing or a string prefix; any other name
    there is a name followed by a string literal, which is not a
    statement, and compiling the module raises [SyntaxError].
    [contents] is what the module defines when it loads. *)
Definition import_module {A} (line : string) (contents : A) : result A :=
  let before := before_quote line in
  if String.eqb before "" || existsb (String.eqb before) string_prefixes
  then Ok contents
  else Raise (Exn "SyntaxError" "invalid syntax").

(** [from app.models.router import ModelRouter]: the class, that is, its
    constructor. *)
Definition import_ModelRouter : result (ModelRegistry.t -> ModelRouter.t) :=
  import_module first_line ModelRouter.init.

(** A program that imports the router, builds one over a registry and
    asks it [n] times for a model with one context. *)
Definition select_many_shipped (n : nat) (reg : ModelRegistry.t)
  (context : RoutingContext) : result (list (result (option ModelInfo))) :=
  bind import_ModelRouter (fun new_router =>
    Ok (fst (select_many n (new_router reg) context))).

End RouterModule.

(* ================================================================== *)
(** * Python values and pydantic models *)
(* ================================================================== *)

Module Pydantic.

(** The values that reach the agent code: what [response.json()] builds,
    datetimes, and instances of pydantic models ([PObj] with the class
    name and the attributes). *)
Inductive pyval : Type :=
| PNone
| PBool (b : bool)
| PInt (n : Z)
| PFloat (q : Q)
| PStr (s : string)
| PList (l : list pyval)
| PDict (d : list (string * pyval))
| PDatetime (t : Z)
| PObj (cls : string) (attrs : list (string * pyval)).

Definition dict := list (string * pyval).

(** [type(v).__name__] *)
Definition type_name (v : pyval) : string :=
  match v with
  | PNone => "NoneType"
  | PBool _ => "bool"
  | PInt _ => "int"
  | PFloat _ => "float"
  | PStr _ => "str"
  | PList _ => "list"
  | PDict _ => "dict"
  | PDatetime _ => "datetime.datetime"
  | PObj cls _ => cls
  end.

Definition AttributeError (v : pyval) (attr : string) : exn :=
  Exn "AttributeError"
    ("'" ++ type_name v ++ "' object has no attribute '" ++ attr ++ "'").

(** [obj.get(key, default)] *)
Definition get (obj : pyval) (key : string) (default : pyval) : result pyval :=
  match obj with
  | PDict d =>
      Ok (match dict_get d key with Some v => v | None => default end)
  | _ => Raise (AttributeError obj "get")
  end.

(** [obj.name] on a model instance. *)
Definition attr (obj : pyval) (name : string) : result pyval :=
  match obj with
  | PObj _ attrs =>
      match dict_get attrs name with
      | Some v => Ok v
      | None => Raise (AttributeError obj name)
      end
  | _ => Raise (AttributeError obj name)
  end.

Fixpoint chars (s : string) : list pyval :=
  match s with
  | EmptyString => []
  | String c s' => PStr (String c EmptyString) :: chars s'
  end.

(** [for x in v]: the items the loop visits. *)
Definition iter (v : pyval) : result (list pyval) :=
  match v with
  | PList l => Ok l
  | PDict d => Ok (map PStr (dict_keys d))
  | PStr s => Ok (chars s)
  | _ => Raise (Exn "TypeError"
                  ("'" ++ type_name v ++ "' object is not iterable"))
  end.

(** [bool(v)] *)
Definition truthy (v : pyval) : bool :=
  match v with
  | PNone => false
  | PBool b => b
  | PInt n => negb (n =? 0)
  | PFloat q => negb (Qeq_bool q 0)
  | PStr s => negb (String.eqb s "")
  | PList l => match l with [] => false | _ => true end
  | PDict d => match d with [] => false | _ => true end
  | PDatetime _ => true
  | PObj _ _ => true
  end.

(** ** Field types: [Some v'] is the validated value, [None] a type error.
    Conversions follow pydantic's default mode as far as the values that
    occur here go: a [str] field takes only strings, a [float] field also
    integers and booleans. *)

Definition as_str (v : pyval) : option pyval :=
  match v with
  | PStr _ => Some v
  | _ => None
  end.

Definition as_float (v : pyval) : option pyval :=
  match v with
  | PFloat _ => Some v
  | PInt n => Some (PFloat (inject_Z n))
  | PBool b => Some (PFloat (if b then 1 else 0))
  | _ => None
  end.

Definition as_int (v : pyval) : option pyval :=
  match v with
  | PInt _ => Some v
  | PBool b => Some (PInt (if b then 1 else 0))
  | _ => None
  end.

Definition as_datetime (v : pyval) : option pyval :=
  match v with
  | PDatetime _ => Some v
  | _ => None
  end.

Definition as_dict (v : pyval) : option pyval :=
  match v with
  | PDict _ => Some v
  | _ => None
  end.

(** [Optional[T]] *)
Definition as_optional (T : pyval -> option pyval) (v : pyval) : option pyval :=
  match v with
  | PNone => Some PNone
  | _ => T v
  end.

Fixpoint all_some (l : list (option pyval)) : option (list pyval) :=
  match l with
  | [] => Some []
  | None :: _ => None
  | Some v :: l' =>
      match all_some l' with
      | Some vs => Some (v :: vs)
      | None => None
      end
  end.

(** [List[T]] *)
Definition as_list (T : pyval -> option pyval) (v : pyval) : option pyval :=
  match v with
  | PList l => option_map PList (all_some (map T l))
  | _ => None
  end.

(** A field whose type is the model class [cls]. *)
Definition as_model (cls : string) (v : pyval) : option pyval :=
  match v with
  | PObj c _ => if String.eqb c cls then Some v else None
  | _ => None
  end.

(** A [str]-valued [Enum]: one of its values. *)
Definition as_enum (values : list string) (v : pyval) : option pyval :=
  match v with
  | PStr s => if existsb (String.eqb s) values then Some v else None
  | _ => None
  end.

(** ** Model classes *)

(** One declared field.  [default = None] is [Field(...)], a required
    field.  [pre_always] is a [@validator(name, pre=True, always=True)]
    method: it receives the raw value and [values], the fields validated
    before this one. *)
Record Field : Type := {
  name : string;
  default : option pyval;
  pre_always : option (pyval -> dict -> pyval);
  type_ : pyval -> option pyval
}.

Definition ValidationError (cls field detail : string) : exn :=
  Exn "ValidationError"
    ("1 validation error for " ++ cls ++ ": " ++ field ++ ": " ++ detail).

(** Validation of the keyword arguments [kwargs] against the fields, in
    declaration order.  A required field that is not supplied is an error
    and its validators do not run; a supplied value goes through the
    field's validators and then its type; a default is used as it is,
    unless the field has an [always] validator, which then runs on it.
    The report names the first field that fails. *)
Fixpoint validate_model (cls : string) (fields : list Field) (kwargs : dict)
  (values : dict) : result dict :=
  match fields with
  | [] => Ok values
  | f :: fields' =>
      let checked (v : pyval) : result dict :=
        let v := match pre_always f with
                 | Some validator => validator v values
                 | None => v
                 end in
        match type_ f v with
        | Some v' =>
            validate_model cls fields' kwargs (values ++ [(name f, v')])%list
        | None => Raise (ValidationError cls (name f) "invalid value")
        end in
      match dict_get kwargs (name f) with
      | Some v => checked v
      | None =>
          match default f with
          | None => Raise (ValidationError cls (name f) "field required")
          | Some d =>
              match pre_always f with
              | Some _ => checked d
              | None =>
                  validate_model cls fields' kwargs (values ++ [(name f, d)])%list
              end
          end
      end
  end.

(** Calling the class with keyword arguments. *)
Definition construct (cls : string) (fields : list Field) (kwargs : dict)
  : result pyval :=
  bind (validate_model cls fields kwargs []) (fun values => Ok (PObj cls values)).

(** [obj.dict()] of an instance whose attributes hold no nested models. *)
Definition to_dict (obj : pyval) : pyval :=
  match obj with
  | PObj _ attrs => PDict attrs
  | _ => obj
  end.

End Pydantic.

Import Pydantic.

(* ================================================================== *)
(** * agents/base.py *)
(* ================================================================== *)

Module AgentsBase.

(** [AgentStatus] and [AgentType]: the enum values. *)
Definition IDLE := "idle".
Definition PROCESSING := "processing".
Definition COMPLETED := "completed".
Definition FAILED := "failed".
Definition TIMEOUT := "timeout".
Definition AgentStatus : list string :=
  [IDLE; PROCESSING; COMPLETED; FAILED; TIMEOUT].

Definition N8N := "n8n".
Definition AgentType : list string :=
  ["langgraph"; "langchain"; N8N; "crewai"; "autogen"; "llamaindex"; "custom"].

Record AgentContext : Type := {
  tenant_id : string;
  user_id : string;
  session_id : string;
  conversation_history : list pyval;
  user_preferences : dict;
  context_metadata : dict;
  document_ids : option (list string);
  max_execution_time : option Z;
  max_tokens : option Z;
  temperature : option Q
}.

Definition required (n : string) (T : pyval -> option pyval) : Field :=
  {| name := n; default := None; pre_always := None; type_ := T |}.

Definition optional (n : string) (d : pyval) (T : pyval -> option pyval) : Field :=
  {| name := n; default := Some d; pre_always := None; type_ := T |}.

Definition Citation_fields : list Field :=
  [ required "source" as_str;
    required "content" as_str;
    optional "relevance_score" PNone (as_optional as_float);
    optional "metadata" (PDict []) as_dict ].

Definition Citation (kwargs : dict) : result pyval :=
  construct "Citation" Citation_fields kwargs.

(** [delta.total_seconds()] of a difference of microseconds. *)
Definition total_seconds (delta : Z) : Q := (delta # 1000000)%Q.

(** The validator of [execution_time]. *)
Definition calculate_execution_time (v : pyval) (values : dict) : pyval :=
  match v with
  | PNone =>
      match dict_get values "started_at", dict_get values "completed_at" with
      | Some (PDatetime started), Some (PDatetime completed) =>
          PFloat (total_seconds (completed - started))
      | _, _ => v
      end
  | _ => v
  end.

(** The fields of [AgentResponse] in the order of the class body; [now]
    is what the [default_factory] [datetime.utcnow] returns. *)
Definition AgentResponse_fields (now : Z) : list Field :=
  [ required "answer" as_str;
    optional "citations" (PList []) (as_list (as_model "Citation"));
    optional "thoughts" (PList []) (as_list (as_model "AgentThought"));
    required "agent_id" as_str;
    required "agent_type" (as_enum AgentType);
    optional "status" (PStr COMPLETED) (as_enum AgentStatus);
    {| name := "execution_time";
       default := None;
       pre_always := Some calculate_execution_time;
       type_ := as_float |};
    optional "tokens_used" PNone (as_optional as_int);
    optional "visualization_data" PNone (as_optional as_dict);
    optional "tools_used" (PList []) (as_list as_str);
    optional "metadata" (PDict []) as_dict;
    optional "error" PNone (as_optional as_str);
    optional "started_at" (PDatetime now) as_datetime;
    optional "completed_at" (PDatetime now) as_datetime ].

Definition AgentResponse (now : Z) (kwargs : dict) : result pyval :=
  construct "AgentResponse" (AgentResponse_fields now) kwargs.

(** [AgentStreamChunk(chunk_type=..., content=..., metadata=...)]: the
    adapters pass two strings and a dict, which validation accepts as they
    are; [timestamp] takes its default. *)
Record AgentStreamChunk : Type := {
  chunk_type : string;
  content : string;
  chunk_metadata : dict;
  timestamp : Z
}.

End AgentsBase.

(* ================================================================== *)
(** * agents/base.py: health status and the utility functions *)
(* ================================================================== *)

Module AgentsUtil.

Import AgentsBase.

(** [HealthStatus(healthy=..., message=..., details=...)]: the adapters
    pass a boolean, a string and a dict; [checked_at] takes its default. *)
Record HealthStatus : Type := {
  healthy : bool;
  message : option string;
  details : dict;
  checked_at : Z
}.

(** [BaseAgent.validate_query] *)
Definition validate_query (query : string) : bool :=
  if String.eqb query "" || negb (strip_nonempty query) then false else true.

(** [create_error_response(agent_id, agent_type, error, query)];
    [agent_type] is the value of a member of [AgentType]. *)
Definition create_error_response (now : Z) (agent_id agent_type error query : string)
  : result pyval :=
  AgentResponse now
    [("answer", PStr ("I apologize, but I encountered an error: " ++ error));
     ("agent_id", PStr agent_id);
     ("agent_type", PStr agent_type);
     ("status", PStr FAILED);
     ("execution_time", PFloat 0);
     ("error", PStr error);
     ("metadata", PDict [("query", PStr query)])].

(** ** [merge_agent_responses]

    The responses are [AgentResponse] instances: their [execution_time]
    is a float, their [answer] and [agent_id] strings and their
    [citations] a list.  The attribute readers below say so; on a value
    of another type they raise. *)

Definition TypeError (what : string) (v : pyval) : exn :=
  Exn "TypeError" (what ++ ", got '" ++ type_name v ++ "'").

Definition float_attr (r : pyval) (name : string) : result Q :=
  bind (attr r name) (fun v =>
    match v with
    | PFloat q => Ok q
    | _ => Raise (TypeError "a float is required" v)
    end).

Definition str_attr (r : pyval) (name : string) : result string :=
  bind (attr r name) (fun v =>
    match v with
    | PStr s => Ok s
    | _ => Raise (TypeError "a str is required" v)
    end).

Definition list_attr (r : pyval) (name : string) : result (list pyval) :=
  bind (attr r name) (fun v =>
    match v with
    | PList l => Ok l
    | _ => Raise (TypeError "a list is required" v)
    end).

(** [min(items, key=...)] on the items paired with their keys, [best]
    being the smallest so far: a later item replaces it only when its key
    is strictly smaller. *)
Fixpoint min_from {A} (best : A) (best_key : Q) (rest : list (A * Q)) : A :=
  match rest with
  | [] => best
  | (x, k) :: rest' =>
      if Qle_bool best_key k then min_from best best_key rest'
      else min_from x k rest'
  end.

(** [sum(...)] and [max(...)] of floats. *)
Definition sum_floats (l : list Q) : Q := fold_left Qplus l 0%Q.

Fixpoint max_from (best : Q) (rest : list Q) : Q :=
  match rest with
  | [] => best
  | k :: rest' => if Qle_bool k best then max_from best rest'
                  else max_from k rest'
  end.

Definition keyed (responses : list pyval) : result (list (pyval * Q)) :=
  mapM (fun r => bind (float_attr r "execution_time") (fun k => Ok (r, k)))
    responses.

Definition merge_agent_responses (now : Z) (responses : list pyval)
  (strategy : string) : result pyval :=
  match responses with
  | [] => Raise (Exn "ValueError" "No responses to merge")
  | [r] => Ok r
  | _ =>
      if String.eqb strategy "best" then
        bind (keyed responses) (fun pairs =>
          match pairs with
          | [] => Raise (Exn "ValueError" "min() arg is an empty sequence")
          | (r, k) :: pairs' => Ok (min_from r k pairs')
          end)
      else if String.eqb strategy "consensus" then
        bind (mapM (fun r => str_attr r "answer") responses) (fun answers =>
        let combined_answer := join (LF ++ LF) answers in
        bind (mapM (fun r => list_attr r "citations") responses) (fun cites =>
        let combined_citations := List.concat cites in
        bind (mapM (fun r => float_attr r "execution_time") responses)
          (fun times =>
        bind (mapM (fun r => attr r "agent_id") responses) (fun ids =>
        AgentResponse now
          [("answer", PStr combined_answer);
           ("citations", PList combined_citations);
           ("agent_id", PStr "merged");
           ("agent_type", PStr "custom");
           ("execution_time", PFloat (sum_floats times));
           ("metadata", PDict [("merged_from", PList ids)])]))))
      else if String.eqb strategy "concatenate" then
        bind (mapM (fun r =>
                      bind (str_attr r "agent_id") (fun id =>
                      bind (str_attr r "answer") (fun answer =>
                      Ok ("**" ++ id ++ "**: " ++ answer)))) responses)
          (fun parts =>
        let combined_answer := join (LF ++ LF ++ "---" ++ LF ++ LF) parts in
        bind (mapM (fun r => float_attr r "execution_time") responses)
          (fun times =>
        match times with
        | [] => Raise (Exn "ValueError" "max() arg is an empty sequence")
        | k :: times' =>
            AgentResponse now
              [("answer", PStr combined_answer);
               ("agent_id", PStr "merged");
               ("agent_type", PStr "custom");
               ("execution_time", PFloat (max_from k times'));
               ("metadata", PDict [("strategy", PStr "concatenate")])]
        end))
      else Raise (Exn "ValueError" ("Unknown merge strategy: " ++ strategy))
  end.

End AgentsUtil.

Import AgentsBase.

(* ================================================================== *)
(** * agents/adapters/n8n_adapter.py *)
(* ================================================================== *)

Module N8NAdapter.

(** ** The HTTP client and the clock *)

(** An HTTP response as the adapter uses it: the status, the exception
    [raise_for_status()] raises when the status is not a success, and what
    [response.json()] does (the decoded body, or the decoder's
    exception). *)
Record response : Type := {
  status_code : Z;
  status_error : exn;
  json : result pyval
}.

(** What one [await client.post(...)] meets: no response at all (the call
    raises: connection refused, timeout, ...) or a response. *)
Inductive http_reply : Type :=
| NoResponse (e : exn)
| Response (r : response).

(** [response.is_success] *)
Definition is_success (code : Z) : bool := (200 <=? code) && (code <=? 299).

(** The world outside the adapter.  [endpoint n] is what the [n]-th POST
    to the webhook meets (counting from 0); [sent] are the requests made
    so far, headers and JSON payload; [clock] is the time, in
    microseconds; [slept] are the arguments of [asyncio.sleep], in call
    order.  Time passes in [asyncio.sleep] only. *)
Record world : Type := {
  endpoint : nat -> http_reply;
  sent : list (list (string * string) * pyval);
  clock : Z;
  slept : list Z
}.

(** [await asyncio.sleep(seconds)] *)
Definition sleep (seconds : Z) (w : world) : world := {|
  endpoint := endpoint w;
  sent := sent w;
  clock := clock w + seconds * 1000000;
  slept := (slept w ++ [seconds])%list
|}.

(** ** The adapter *)

(** The attributes [__init__] sets from the configuration. *)
Record t : Type := {
  agent_id : string;
  name : string;
  webhook_url : string;
  api_key : option string;
  timeout : Z;
  retry_count : Z
}.

(** [client.post(url, json=payload, headers=headers)], then
    [response.raise_for_status()] and [response.json()]. *)
Definition post (self : t) (payload : pyval) (headers : list (string * string))
  (w : world) : result pyval * world :=
  let w' := {| endpoint := endpoint w;
               sent := (sent w ++ [(headers, payload)])%list;
               clock := clock w;
               slept := slept w |} in
  match endpoint w (List.length (sent w)) with
  | NoResponse e => (Raise e, w')
  | Response r =>
      if is_success (status_code r) then (json r, w')
      else (Raise (status_error r), w')
  end.

(** [raise last_error] *)
Definition raise_last (last_error : option exn) : exn :=
  match last_error with
  | Some e => e
  | None => Exn "TypeError" "exceptions must derive from BaseException"
  end.

(** The [for attempt in range(self.retry_count)] loop, on the attempts
    still to make. *)
Fixpoint retry_loop (self : t) (payload : pyval)
  (headers : list (string * string)) (attempts : list Z)
  (last_error : option exn) (w : world) : result pyval * world :=
  match attempts with
  | [] => (Raise (raise_last last_error), w)
  | attempt :: attempts' =>
      match post self payload headers w with
      | (Ok data, w1) => (Ok data, w1)
      | (Raise e, w1) =>
          let w2 :=
            if attempt <? retry_count self - 1
            then sleep (2 ^ attempt) w1
            else w1 in
          retry_loop self payload headers attempts' (Some e) w2
      end
  end.

Definition _call_webhook_with_retry (self : t) (payload : pyval)
  (headers : list (string * string)) (w : world) : result pyval * world :=
  retry_loop self payload headers (range (retry_count self)) None w.

Definition payload_of (query : string) (context : AgentContext) : pyval :=
  PDict [("query", PStr query);
         ("context",
          PDict [("tenant_id", PStr (tenant_id context));
                 ("user_id", PStr (user_id context));
                 ("session_id", PStr (session_id context));
                 ("conversation_history", PList (conversation_history context));
                 ("metadata", PDict (context_metadata context))])].

Definition headers_of (self : t) : list (string * string) :=
  match api_key self with
  | None | Some "" => [("Content-Type", "application/json")]
  | Some key => [("Content-Type", "application/json");
                 ("Authorization", "Bearer " ++ key)]
  end.

(** One round of the loop that converts the citations. *)
Definition convert_citation (citation_data : pyval) : result pyval :=
  bind (get citation_data "source" (PStr "n8n workflow")) (fun source =>
  bind (get citation_data "content" (PStr "")) (fun content =>
  bind (get citation_data "relevance_score" PNone) (fun relevance_score =>
  bind (get citation_data "metadata" (PDict [])) (fun metadata =>
  Citation [("source", source);
            ("content", content);
            ("relevance_score", relevance_score);
            ("metadata", metadata)])))).

(** [{**metadata, ...}] *)
Definition unpack (v : pyval) : result dict :=
  match v with
  | PDict d => Ok d
  | _ => Raise (Exn "TypeError"
                  ("'" ++ type_name v ++ "' object is not a mapping"))
  end.

(** The statements of the [try] block of [execute] that follow the call
    of the webhook. *)
Definition parse_response (self : t) (response_data : pyval)
  (start_time started_at now : Z) : result pyval :=
  bind (get response_data "answer" (PStr "No response from workflow"))
    (fun answer =>
  bind (get response_data "citations" (PList [])) (fun citations_data =>
  bind (get response_data "metadata" (PDict [])) (fun metadata =>
  bind (iter citations_data) (fun items =>
  bind (mapM convert_citation items) (fun citations =>
  let execution_time := total_seconds (now - start_time) in
  bind (get metadata "tools_used" (PList [])) (fun tools_used =>
  bind (unpack metadata) (fun metadata_items =>
  bind (get response_data "execution_id" PNone) (fun execution_id =>
  AgentResponse now
    [("answer", answer);
     ("citations", PList citations);
     ("thoughts", PList []);
     ("agent_id", PStr (agent_id self));
     ("agent_type", PStr N8N);
     ("status", PStr COMPLETED);
     ("execution_time", PFloat execution_time);
     ("tools_used", tools_used);
     ("metadata",
      PDict (dict_update metadata_items
               [("webhook_url", PStr (webhook_url self));
                ("workflow_execution_id", execution_id)]));
     ("started_at", PDatetime started_at);
     ("completed_at", PDatetime now)])))))))).

(** The [except Exception as e] block of [execute]. *)
Definition error_response (self : t) (e : exn) (start_time started_at now : Z)
  : result pyval :=
  AgentResponse now
    [("answer",
      PStr ("I apologize, but the workflow encountered an error: "
            ++ exn_str e));
     ("agent_id", PStr (agent_id self));
     ("agent_type", PStr N8N);
     ("status", PStr FAILED);
     ("execution_time", PFloat (total_seconds (now - start_time)));
     ("error", PStr (exn_str e));
     ("started_at", PDatetime started_at);
     ("completed_at", PDatetime now)].

(** The [try] block of [execute]: its value, or the exception that ends
    it, and the world afterwards. *)
Definition try_block (self : t) (query : string) (context : AgentContext)
  (w : world) : result pyval * world :=
  let start_time := clock w in
  let started_at := clock w in
  let payload := payload_of query context in
  let headers := headers_of self in
  let (called, w1) := _call_webhook_with_retry self payload headers w in
  (bind called (fun response_data =>
     parse_response self response_data start_time started_at (clock w1)),
   w1).

Definition execute (self : t) (query : string) (context : AgentContext)
  (w : world) : result pyval * world :=
  let start_time := clock w in
  let started_at := clock w in
  let (body, w1) := try_block self query context w in
  (try_except body
     (fun e => error_response self e start_time started_at (clock w1)),
   w1).

Definition chunk (type content : string) (metadata : dict) (now : Z)
  : AgentStreamChunk :=
  {| chunk_type := type; content := content;
     chunk_metadata := metadata; timestamp := now |}.

(** [s.split(sep)] on a Python value. *)
Definition split_method (v : pyval) (sep : string) : result (list string) :=
  match v with
  | PStr s => Ok (split s sep)
  | _ => Raise (AttributeError v "split")
  end.

(** [c.dict()] on a Python value. *)
Definition dict_method (v : pyval) : result pyval :=
  match v with
  | PObj _ _ => Ok (to_dict v)
  | _ => Raise (AttributeError v "dict")
  end.

(** The [try] block of [execute_streaming] after its first [yield]: the
    chunks it yields and the exception that ends it, if one does. *)
Definition stream_body (response : result pyval) (now : Z)
  : list AgentStreamChunk * option exn :=
  match response with
  | Raise e => ([], Some e)
  | Ok response =>
  match bind (attr response "answer") (fun a => split_method a ". ") with
  | Raise e => ([], Some e)
  | Ok sentences =>
  let texts :=
    map (fun sentence => chunk "text" (sentence ++ ". ") [] now)
      (filter strip_nonempty sentences) in
  match attr response "citations" with
  | Raise e => (texts, Some e)
  | Ok citations =>
  let completion := chunk "completion" "" [("status", PStr "completed")] now in
  if truthy citations then
    match bind (iter citations) (mapM dict_method) with
    | Raise e => (texts, Some e)
    | Ok dicts =>
        ((texts ++
          [chunk "citations" "" [("citations", PList dicts)] now;
           completion])%list, None)
    end
  else ((texts ++ [completion])%list, None)
  end end end.

(** The chunks the generator yields when it is driven to its end. *)
Definition execute_streaming (self : t) (query : string)
  (context : AgentContext) (w : world) : list AgentStreamChunk * world :=
  let status :=
    chunk "status" "Calling n8n workflow..."
      [("status", PStr "processing")] (clock w) in
  let (response, w1) := execute self query context w in
  let (yielded, raised) := stream_body response (clock w1) in
  ((status :: yielded ++
    match raised with
    | Some e => [chunk "error" (exn_str e) [("status", PStr "failed")] (clock w1)]
    | None => []
    end)%list, w1).

(** ** The reply the webhook protocol documents

    [{answer: string, citations?: array of {source, content,
    relevance_score?, metadata?}, metadata?: object}]: the shape of the
    optional members of a reply object. *)

Definition is_str (v : pyval) : bool :=
  match v with PStr _ => true | _ => false end.

Definition is_number_or_null (v : pyval) : bool :=
  match v with PNone | PInt _ | PFloat _ => true | _ => false end.

Definition is_object (v : pyval) : bool :=
  match v with PDict _ => true | _ => false end.

(** The member [key] of the object is absent or satisfies [shape]. *)
Definition member (d : dict) (key : string) (shape : pyval -> bool) : bool :=
  match dict_get d key with
  | None => true
  | Some v => shape v
  end.

Definition citation_shape (v : pyval) : bool :=
  match v with
  | PDict c =>
      member c "source" is_str
      && member c "content" is_str
      && member c "relevance_score" is_number_or_null
      && member c "metadata" is_object
  | _ => false
  end.

Definition is_array_of (shape : pyval -> bool) (v : pyval) : bool :=
  match v with
  | PList l => forallb shape l
  | _ => false
  end.

Definition metadata_shape (v : pyval) : bool :=
  match v with
  | PDict m => member m "tools_used" (is_array_of is_str)
  | _ => false
  end.

Definition optional_members_shape (d : dict) : bool :=
  member d "citations" (is_array_of citation_shape)
  && member d "metadata" metadata_shape.

End N8NAdapter.

(* ================================================================== *)
(** * agents/adapters/n8n_adapter.py: [health_check] *)
(* ================================================================== *)

Module N8NHealth.

Import AgentsUtil.
Import N8NAdapter.

(** A request the health check makes. *)
Inductive request : Type :=
| GET (url : string)
| POST (url : string) (headers : list (string * string)) (payload : pyval).

(** [await self.health_check()]: [get_reply] and [post_reply] are what the
    GET and the POST meet, [now] the time.  The result is the status and
    the requests made. *)
Definition health_check (self : t) (get_reply post_reply : http_reply)
  (now : Z) : HealthStatus * list request :=
  let get := GET (webhook_url self) in
  let post :=
    POST (webhook_url self) (headers_of self)
      (PDict [("query", PStr "health_check"); ("context", PDict [])]) in
  (* the outer [except Exception as e] *)
  let failed (e : exn) (requests : list request) :=
    ({| healthy := false;
        message := Some ("Health check failed: " ++ exn_str e);
        details := [("error", PStr (exn_str e))];
        checked_at := now |}, requests) in
  (* the minimal POST request *)
  let try_post :=
    match post_reply with
    | NoResponse e => failed e [get; post]
    | Response r =>
        if status_code r =? 200 then
          ({| healthy := true;
              message := Some "n8n workflow is healthy";
              details := [("agent_id", PStr (agent_id self));
                          ("webhook_url", PStr (webhook_url self))];
              checked_at := now |}, [get; post])
        else
          ({| healthy := false;
              message := Some ("n8n returned status " ++ str_int (status_code r));
              details := [];
              checked_at := now |}, [get; post])
    end in
  match get_reply with
  | Response r =>
      if (status_code r =? 200) || (status_code r =? 405) then
        ({| healthy := true;
            message := Some "n8n workflow is reachable";
            details := [("agent_id", PStr (agent_id self));
                        ("webhook_url", PStr (webhook_url self));
                        ("status_code", PInt (status_code r))];
            checked_at := now |}, [get])
      else try_post
  | NoResponse e =>
      (* [except httpx.HTTPStatusError: pass] *)
      if String.eqb (exn_class e) "HTTPStatusError" then try_post
      else failed e [get]
  end.

End N8NHealth.


(* ================================================================== *)
(** * Sample data *)
(* ================================================================== *)

Module Samples.

Import ModelRouter.

(** Capabilities with function calling and the given per-1k-token costs. *)
Definition caps (input output : Q) : ModelCapabilities := {|
  supports_streaming := true;
  supports_function_calling := true;
  supports_vision := false;
  supports_json_mode := false;
  supports_system_messages := true;
  max_context_length := 8192;
  max_output_tokens := 4096;
  supports_temperature := true;
  supports_top_p := true;
  supports_stop_sequences := true;
  cost_per_1k_input_tokens := input;
  cost_per_1k_output_tokens := output
|}.

Definition gpt4 : ModelInfo :=
  new_ModelInfo OPENAI "gpt-4" "GPT-4" (caps 0.03 0.06) [] [].

Definition haiku : ModelInfo :=
  new_ModelInfo ANTHROPIC "claude-3-haiku" "Claude 3 Haiku"
    (caps 0.001 0.001) [] [].

Definition opus : ModelInfo :=
  new_ModelInfo ANTHROPIC "claude-3-opus" "Claude 3 Opus"
    (caps 0.09 0.09) [] [].

(** A model entered with negative costs: [ModelCapabilities] is a plain
    dataclass and checks nothing. *)
Definition rebate : ModelInfo :=
  new_ModelInfo CUSTOM "rebate" "Rebate" (caps (-0.05) (-0.05)) [] [].

Definition sonnet : ModelInfo :=
  new_ModelInfo ANTHROPIC "claude-3-sonnet" "Claude 3 Sonnet"
    (caps 0.003 0.015) [] [].

(** A registry with one model per call of [register_model]. *)
Definition register (self : ModelRegistry.t) (m : ModelInfo) : ModelRegistry.t :=
  register_model self (provider m) (model_name m) (display_name m)
    (capabilities m) None None.

Definition registry_gpt4 : ModelRegistry.t := register ModelRegistry.init gpt4.

Definition registry_gpt4_haiku : ModelRegistry.t :=
  register (register ModelRegistry.init gpt4) haiku.

Definition registry_opus_haiku : ModelRegistry.t :=
  register (register ModelRegistry.init opus) haiku.

Definition registry_three : ModelRegistry.t :=
  register (register (register ModelRegistry.init gpt4) sonnet) haiku.

(** The same registry with a provider instance bound for OpenAI. *)
Definition bind_provider (self : ModelRegistry.t) (p : ModelProvider)
  (name : string) : ModelRegistry.t := {|
  _models := _models self;
  _providers :=
    dict_set (_providers self) (value p)
      {| provider_of := p; provider_model_name := name |};
  _health_check_interval := _health_check_interval self
|}.

Definition registry_gpt4_bound : ModelRegistry.t :=
  bind_provider registry_gpt4 OPENAI "gpt-4".

Definition gpt4_id : string := model_id_of OPENAI "gpt-4".

(** An n8n adapter that makes at most [n] attempts. *)
Definition adapter (n : Z) : N8NAdapter.t := {|
  N8NAdapter.agent_id := "n8n-workflow";
  N8NAdapter.name := "n8n Custom Workflow";
  N8NAdapter.webhook_url := "https://n8n.example/webhook/abc123";
  N8NAdapter.api_key := None;
  N8NAdapter.timeout := 120;
  N8NAdapter.retry_count := n
|}.

Definition context : AgentContext := {|
  tenant_id := "tenant-1";
  user_id := "user-1";
  session_id := "session-1";
  conversation_history := [];
  user_preferences := [];
  context_metadata := [];
  document_ids := None;
  max_execution_time := Some 120;
  max_tokens := None;
  temperature := None
|}.

Definition world_of (endpoint : nat -> N8NAdapter.http_reply) : N8NAdapter.world := {|
  N8NAdapter.endpoint := endpoint;
  N8NAdapter.sent := [];
  N8NAdapter.clock := 0;
  N8NAdapter.slept := []
|}.

Definition connect_error : exn :=
  Exn "ConnectError" "All connection attempts failed".

(** An endpoint that cannot be reached. *)
Definition unreachable : N8NAdapter.world :=
  world_of (fun _ => N8NAdapter.NoResponse connect_error).

Definition status_500 : N8NAdapter.response := {|
  N8NAdapter.status_code := 500;
  N8NAdapter.status_error :=
    Exn "HTTPStatusError" "Server error '500 Internal Server Error'";
  N8NAdapter.json := Raise (Exn "JSONDecodeError" "Expecting value")
|}.

Definition ok_200 (body : pyval) : N8NAdapter.response := {|
  N8NAdapter.status_code := 200;
  N8NAdapter.status_error := Exn "HTTPStatusError" "";
  N8NAdapter.json := Ok body
|}.

(** An endpoint that answers 500 to the first [k] requests and 200 with
    [body] from then on. *)
Definition fails_then_ok (k : nat) (body : pyval) : N8NAdapter.world :=
  world_of (fun n => if (n <? k)%nat
                     then N8NAdapter.Response status_500
                     else N8NAdapter.Response (ok_200 body)).

Definition answer_ok : pyval := PDict [("answer", PStr "ok")].

End Samples.

(* ================================================================== *)
(** * Notions used in the statements *)
(* ================================================================== *)

Import ModelRouter.
Import N8NAdapter.
Import Samples.

(** The fields validated before [execution_time]: none of them is
    [started_at] or [completed_at]. *)
Definition before_execution_time (values : dict) : Prop :=
  dict_keys values
  = ["answer"; "citations"; "thoughts"; "agent_id"; "agent_type"; "status"].

(** The answer of a failed execution. *)
Definition apology (e : exn) : string :=
  "I apologize, but the workflow encountered an error: " ++ exn_str e.

(** The response the [except] block of [execute] builds. *)
Definition failed_response (self : N8NAdapter.t) (e : exn)
  (start_time started_at now : Z) : pyval :=
  PObj "AgentResponse"
    [("answer", PStr (apology e));
     ("citations", PList []);
     ("thoughts", PList []);
     ("agent_id", PStr (agent_id self));
     ("agent_type", PStr N8N);
     ("status", PStr FAILED);
     ("execution_time", PFloat (total_seconds (now - start_time)));
     ("tokens_used", PNone);
     ("visualization_data", PNone);
     ("tools_used", PList []);
     ("metadata", PDict []);
     ("error", PStr (exn_str e));
     ("started_at", PDatetime started_at);
     ("completed_at", PDatetime now)].

Definition status_chunk (now : Z) : AgentStreamChunk :=
  chunk "status" "Calling n8n workflow..." [("status", PStr "processing")] now.

Definition completion_chunk (now : Z) : AgentStreamChunk :=
  chunk "completion" "" [("status", PStr "completed")] now.

(** The text chunks for an answer: one for each piece between the
    separators [". "] that is not blank. *)
Definition text_chunks (answer : string) (now : Z) : list AgentStreamChunk :=
  map (fun sentence => chunk "text" (sentence ++ ". ") [] now)
    (filter strip_nonempty (split answer ". ")).


(** The world after one more request. *)
Definition posted (headers : list (string * string)) (payload : pyval)
  (w : world) : world := {|
  endpoint := endpoint w;
  sent := (sent w ++ [(headers, payload)])%list;
  clock := clock w;
  slept := slept w
|}.

(** The world after [m] failed attempts of an adapter, the first of them
    attempt number [a]: a request each, and a sleep of [2 ^ attempt]
    seconds after each but the last attempt the adapter may make. *)
Fixpoint after_failures (self : N8NAdapter.t) (headers : list (string * string))
  (payload : pyval) (a m : nat) (w : world) : world :=
  match m with
  | O => w
  | S m' =>
      let w1 := posted headers payload w in
      let w2 :=
        if Z.of_nat a <? retry_count self - 1
        then sleep (2 ^ Z.of_nat a) w1
        else w1 in
      after_failures self headers payload (S a) m' w2
  end.

(** The delays [2^0, 2^1, ..., 2^(m-1)]. *)
Definition backoff (m : nat) : list Z := map (fun j => 2 ^ Z.of_nat j) (seq 0 m).

(** The capability flag that a required capability names; a name the
    registry and the router do not know asks for nothing. *)
Definition has_capability (capability : string) (m : ModelInfo) : bool :=
  if String.eqb capability "function_calling" then
    supports_function_calling (capabilities m)
  else if String.eqb capability "vision" then supports_vision (capabilities m)
  else if String.eqb capability "streaming" then
    supports_streaming (capabilities m)
  else if String.eqb capability "json_mode" then
    supports_json_mode (capabilities m)
  else true.

(** All the tests of [_filter_models] on one model. *)
Definition eligible (context : RoutingContext) (m : ModelInfo) : bool :=
  is_available m
  && (negb (truthy_list (preferred_providers context))
      || provider_in (provider m) (unwrap (preferred_providers context)))
  && (negb (truthy_list (excluded_providers context))
      || negb (provider_in (provider m) (unwrap (excluded_providers context))))
  && (negb (truthy_int (min_context_length context))
      || match min_context_length context with
         | Some n => n <=? max_context_length (capabilities m)
         | None => true
         end)
  && (negb (truthy_float (max_cost_per_1k_tokens context))
      || match max_cost_per_1k_tokens context with
         | Some c => Qle_bool (avg_cost m) c
         | None => true
         end)
  && forallb (fun capability => has_capability capability m)
       (required_capabilities context).


(** An instance of a pydantic model. *)
Definition is_model (v : pyval) : Prop := exists cls attrs, v = PObj cls attrs.

(** The chunk that carries the citations of a response, if it has any. *)
Definition citation_chunks (citations : list pyval) (now : Z)
  : list AgentStreamChunk :=
  match citations with
  | [] => []
  | _ => [chunk "citations" "" [("citations", PList (map to_dict citations))] now]
  end.

(** What validation leaves in a field: the field's name with a value that
    the field's type accepted, or with the field's default. *)
Definition entry_ok (f : Field) (e : string * pyval) : Prop :=
  fst e = Pydantic.name f
  /\ ((exists v, type_ f v = Some (snd e)) \/ default f = Some (snd e)).

(** An [AgentResponse] instance: what the class returns when it is called. *)
Definition is_agent_response (r : pyval) : Prop :=
  exists now kwargs, AgentResponse now kwargs = Ok r.
Import ModelRouter.

(* ================================================================== *)
(** * Properties *)
(* ================================================================== *)

(** ** Dictionaries *)

Lemma dict_get_set_same {V} (d : list (string * V)) k v :
  dict_get (dict_set d k v) k = Some v.
Proof.
  induction d as [|[k' v'] d IH]; simpl.
  - now rewrite String.eqb_refl.
  - destruct (String.eqb k' k) eqn:E; simpl; rewrite E; auto.
Qed.

Lemma dict_get_set_other {V} (d : list (string * V)) k k0 v :
  k0 <> k -> dict_get (dict_set d k v) k0 = dict_get d k0.
Proof.
  intros Hne. induction d as [|[k' v'] d IH]; simpl.
  - destruct (String.eqb k k0) eqn:E; auto.
    apply String.eqb_eq in E. congruence.
  - destruct (String.eqb k' k) eqn:E; simpl.
    + apply String.eqb_eq in E. subst k'.
      destruct (String.eqb k k0) eqn:E0; auto.
      apply String.eqb_eq in E0. congruence.
    + now rewrite IH.
Qed.

Lemma dict_set_length_present {V} (d : list (string * V)) k v old :
  dict_get d k = Some old -> List.length (dict_set d k v) = List.length d.
Proof.
  induction d as [|[k' v'] d IH]; simpl; intros H.
  - discriminate.
  - destruct (String.eqb k' k); simpl; auto.
Qed.

Lemma dict_set_keys_present {V} (d : list (string * V)) k v old :
  dict_get d k = Some old -> dict_keys (dict_set d k v) = dict_keys d.
Proof.
  induction d as [|[k' v'] d IH]; simpl; intros H.
  - discriminate.
  - destruct (String.eqb k' k); simpl; auto. f_equal. auto.
Qed.

(** ** The stable sort *)

Section Sorting.

Variable A : Type.
Variable le : A -> A -> bool.
Hypothesis le_total : forall a b, le a b = true \/ le b a = true.
Hypothesis le_trans : forall a b c, le a b = true -> le b c = true -> le a c = true.

Lemma insert_by_perm x l : Permutation (insert_by le x l) (x :: l).
Proof.
  induction l as [|y ys IH]; simpl.
  - apply Permutation_refl.
  - destruct (le x y).
    + apply Permutation_refl.
    + eapply Permutation_trans; [apply perm_skip, IH | apply perm_swap].
Qed.

Lemma sort_by_perm l : Permutation (sort_by le l) l.
Proof.
  induction l as [|x xs IH]; simpl.
  - apply perm_nil.
  - eapply Permutation_trans; [apply insert_by_perm | now apply perm_skip].
Qed.

Lemma insert_by_sorted x l :
  StronglySorted (fun a b => le a b = true) l ->
  StronglySorted (fun a b => le a b = true) (insert_by le x l).
Proof.
  induction l as [|y ys IH]; simpl; intros Hs.
  - constructor; constructor.
  - inversion Hs as [|? ? Hys Hall]; subst.
    destruct (le x y) eqn:E.
    + constructor; [assumption|].
      constructor; [assumption|].
      rewrite Forall_forall in *. intros z Hz. eauto.
    + constructor; [auto|].
      assert (Hyx : le y x = true) by (destruct (le_total x y); congruence).
      rewrite Forall_forall in *. intros z Hz.
      apply (Permutation_in _ (insert_by_perm x ys)) in Hz.
      destruct Hz as [<-|Hz]; auto.
Qed.

Lemma sort_by_sorted l : StronglySorted (fun a b => le a b = true) (sort_by le l).
Proof.
  induction l as [|x xs IH]; simpl.
  - constructor.
  - now apply insert_by_sorted.
Qed.

Lemma sort_by_in l x : In x (sort_by le l) <-> In x l.
Proof.
  split; apply Permutation_in;
    [apply sort_by_perm | apply Permutation_sym, sort_by_perm].
Qed.

Lemma sort_by_nonempty l : l <> [] -> sort_by le l <> [].
Proof.
  intros Hl Hs. apply Hl.
  apply Permutation_nil. rewrite <- Hs. apply sort_by_perm.
Qed.

(** The first element of the sorted list is a smallest element. *)
Lemma sort_by_head_least l m rest :
  sort_by le l = m :: rest -> In m l /\ forall x, In x l -> le m x = true.
Proof.
  intros Hs. split.
  - apply sort_by_in. rewrite Hs. now left.
  - intros x Hx. apply sort_by_in in Hx. rewrite Hs in Hx.
    pose proof (sort_by_sorted l) as Hsorted. rewrite Hs in Hsorted.
    inversion Hsorted as [|? ? _ Hall]; subst.
    destruct Hx as [<-|Hx].
    + destruct (le_total m m); assumption.
    + rewrite Forall_forall in Hall. auto.
Qed.

End Sorting.

Lemma Qle_bool_total (a b : Q) : Qle_bool a b = true \/ Qle_bool b a = true.
Proof.
  rewrite !Qle_bool_iff.
  destruct (Qlt_le_dec a b) as [H|H]; [left; now apply Qlt_le_weak | now right].
Qed.

Lemma Qle_bool_trans (a b c : Q) :
  Qle_bool a b = true -> Qle_bool b c = true -> Qle_bool a c = true.
Proof. rewrite !Qle_bool_iff. apply Qle_trans. Qed.

(** Among the elements with the least key, the stable sort puts first the
    one that comes first in the input. *)
Section StableHead.
Variable A : Type.
Variable le : A -> A -> bool.
Hypothesis le_total : forall a b, le a b = true \/ le b a = true.
Hypothesis le_trans : forall a b c, le a b = true -> le b c = true -> le a c = true.

Lemma sort_by_head_first l m rest :
  sort_by le l = m :: rest ->
  exists before after,
    l = (before ++ m :: after)%list
    /\ (forall x, In x before -> le x m = false)
    /\ (forall x, In x after -> le m x = true).
Proof.
  revert m rest. induction l as [|x xs IH]; intros m rest H; [discriminate|].
  simpl in H.
  destruct (sort_by le xs) as [|m' rest'] eqn:E.
  - simpl in H. injection H as <- <-.
    assert (xs = []) as ->.
    { destruct xs; [reflexivity|]. exfalso. revert E.
      apply sort_by_nonempty. discriminate. }
    exists [], []. repeat split; intros y [].
  - destruct (IH m' rest' eq_refl) as (before & after & Hxs & Hb & Ha).
    simpl in H. destruct (le x m') eqn:Ex; injection H as <- <-.
    + exists [], xs. split; [reflexivity|]. split; [intros y []|].
      intros y Hy. apply le_trans with m'; [assumption|].
      destruct (@sort_by_head_least _ le le_total le_trans xs m' rest' E) as [_ Hleast].
      now apply Hleast.
    + exists (x :: before), after. split; [now rewrite Hxs|]. split.
      * intros y [<-|Hy]; auto.
      * assumption.
Qed.
End StableHead.

Lemma sort_key_float_first {A} (key : A -> Q) (l : list A) :
  match head (sort_key_float key l) with
  | None => l = []
  | Some m =>
      exists before after,
        l = (before ++ m :: after)%list
        /\ (forall x, In x before -> (key m < key x)%Q)
        /\ (forall x, In x after -> (key m <= key x)%Q)
  end.
Proof.
  unfold sort_key_float.
  destruct (sort_by (fun a b => Qle_bool (key a) (key b)) l) as [|m rest] eqn:E;
    simpl.
  - destruct l as [|x xs]; [reflexivity|].
    exfalso. revert E. apply sort_by_nonempty. discriminate.
  - apply sort_by_head_first in E.
    + destruct E as (before & after & Hl & Hb & Ha).
      exists before, after. split; [assumption|]. split.
      * intros x Hx. apply Qnot_le_lt. intros Hle.
        apply Qle_bool_iff in Hle. rewrite (Hb x Hx) in Hle. discriminate.
      * intros x Hx. apply Qle_bool_iff. auto.
    + intros a b. apply Qle_bool_total.
    + intros a b c. apply Qle_bool_trans.
Qed.

(** ** The model registry *)

(** C9.  Registering a provider and model name whose id is already in the
    registry is an ordinary call with an ordinary result: the entry under
    that id is replaced, in place, by a fresh [ModelInfo] that is
    available, has no recorded health-check failure and no last health
    check, whatever the old entry said; no entry is added and the other
    entries are untouched. *)
Theorem register_model_replaces_entry :
  forall (self : ModelRegistry.t) p name display caps tgs meta old,
    get_model self (model_id_of p name) = Some old ->
    let self' := register_model self p name display caps tgs meta in
    (exists m,
        get_model self' (model_id_of p name) = Some m
        /\ is_available m = true
        /\ health_check_failures m = 0
        /\ last_health_check m = None
        /\ provider m = p /\ model_name m = name
        /\ display_name m = display /\ capabilities m = caps)
    /\ List.length (_models self') = List.length (_models self)
    /\ dict_keys (_models self') = dict_keys (_models self)
    /\ (forall id, id <> model_id_of p name ->
                   get_model self' id = get_model self id).
Proof.
  intros self p name display caps tgs meta old Hold self'.
  unfold self', register_model, get_model in *; simpl.
  repeat split.
  - eexists. split; [apply dict_get_set_same|]. simpl. repeat split.
  - eapply dict_set_length_present; eassumption.
  - eapply dict_set_keys_present; eassumption.
  - intros id Hne. now apply dict_get_set_other.
Qed.


Lemma register_model_replaces_entry_witness :
  get_model
    (snd (health_check registry_gpt4_bound gpt4_id (Returns false) 1))
    (model_id_of OPENAI "gpt-4")
  = Some (set_health gpt4 false (Some 1) 1)
  /\ exists m,
      get_model
        (register_model
           (snd (health_check registry_gpt4_bound gpt4_id (Returns false) 1))
           OPENAI "gpt-4" "GPT-4" (caps 0.03 0.06) None None)
        (model_id_of OPENAI "gpt-4") = Some m
      /\ is_available m = true
      /\ health_check_failures m = 0
      /\ last_health_check m = None.
Proof.
  split; [reflexivity|].
  destruct (@register_model_replaces_entry
              (snd (health_check registry_gpt4_bound gpt4_id (Returns false) 1))
              OPENAI "gpt-4" "GPT-4" (caps 0.03 0.06) None None
              (set_health gpt4 false (Some 1) 1) eq_refl)
    as [[m (Hget & Ha & Hf & Hl & _)] _].
  exists m. repeat split; assumption.
Defined.

(** ** Health checks *)

(** With a provider instance bound, a health check whose probe returns
    [False] leaves the model unavailable, whatever its failure count. *)
Lemma health_check_unhealthy_unavailable :
  forall (self : ModelRegistry.t) model_id model instance now,
    get_model self model_id = Some model ->
    dict_get (_providers self) (value (provider model)) = Some instance ->
    exists model',
      get_model (snd (health_check self model_id (Returns false) now)) model_id
      = Some model'
      /\ is_available model' = false
      /\ health_check_failures model' = health_check_failures model + 1.
Proof.
  intros self model_id model instance now Hget Hprov.
  unfold get_model in *. unfold health_check. rewrite Hget, Hprov. simpl.
  rewrite dict_get_set_same. eexists. split; [reflexivity|].
  destruct (3 <=? health_check_failures model + 1); simpl; auto.
Qed.

(** A health check whose probe returns [True] makes the model available
    and clears its failure count. *)
Lemma health_check_healthy_resets :
  forall (self : ModelRegistry.t) model_id model instance now,
    get_model self model_id = Some model ->
    dict_get (_providers self) (value (provider model)) = Some instance ->
    exists model',
      get_model (snd (health_check self model_id (Returns true) now)) model_id
      = Some model'
      /\ is_available model' = true
      /\ health_check_failures model' = 0.
Proof.
  intros self model_id model instance now Hget Hprov.
  unfold get_model in *. unfold health_check. rewrite Hget, Hprov. simpl.
  rewrite dict_get_set_same. eexists. split; [reflexivity|]. simpl. auto.
Qed.

(** A health check whose probe raises counts a failure and leaves the
    availability as it was. *)
Lemma health_check_raising_keeps_availability :
  forall (self : ModelRegistry.t) model_id model instance e now,
    get_model self model_id = Some model ->
    dict_get (_providers self) (value (provider model)) = Some instance ->
    exists model',
      get_model (snd (health_check self model_id (Raises e) now)) model_id
      = Some model'
      /\ is_available model' = is_available model
      /\ health_check_failures model' = health_check_failures model + 1.
Proof.
  intros self model_id model instance e now Hget Hprov.
  unfold get_model in *. unfold health_check. rewrite Hget, Hprov. simpl.
  rewrite dict_get_set_same. eexists. split; [reflexivity|]. simpl. auto.
Qed.

(** C2.  The availability state machine on a freshly registered model
    with a bound provider instance: the first failed health check already
    makes the model unavailable (one recorded failure), it stays so after
    the second and the third, and one success afterwards makes it
    available again with the count at 0.  When the probe fails by raising,
    three failures in a row are counted and the model is still
    available. *)
Theorem health_check_first_failure_marks_unavailable :
  let state outcomes :=
    option_map (fun m => (is_available m, health_check_failures m))
      (get_model (health_checks registry_gpt4_bound gpt4_id outcomes 1) gpt4_id) in
  let crash := Raises (Exn "RuntimeError" "probe crashed") in
  state [] = Some (true, 0)
  /\ state [Returns false] = Some (false, 1)
  /\ state [Returns false; Returns false] = Some (false, 2)
  /\ state [Returns false; Returns false; Returns false] = Some (false, 3)
  /\ state [Returns false; Returns false; Returns false; Returns true]
     = Some (true, 0)
  /\ state [crash; crash; crash] = Some (true, 3).
Proof. repeat split; reflexivity. Qed.

(** ** Performance-optimized routing *)

Lemma filter_models_registry (self self' : ModelRouter.t) context :
  registry self = registry self' ->
  _filter_models self context = _filter_models self' context.
Proof. intros H. unfold _filter_models. now rewrite H. Qed.

(** C6.  With OpenAI's gpt-4 and Anthropic's claude-3-haiku registered
    and a performance-optimized context that excludes Anthropic, the
    filtered candidates are gpt-4 alone, yet the router selects the haiku
    model, whose provider the context excludes. *)
Theorem performance_optimized_ignores_provider_filter :
  let router := ModelRouter.init registry_gpt4_haiku in
  let context := {|
    strategy := PERFORMANCE_OPTIMIZED;
    required_capabilities := [];
    min_context_length := None;
    max_cost_per_1k_tokens := None;
    preferred_providers := None;
    excluded_providers := Some [ANTHROPIC];
    manual_model := None |} in
  _filter_models router context = [gpt4]
  /\ fst (_select_model router context) = Ok (Some haiku)
  /\ model_in haiku (_filter_models router context) = false
  /\ provider_in (provider haiku) [ANTHROPIC] = true.
Proof. repeat split; reflexivity. Qed.

(** ** Round-robin routing *)

Lemma select_many_round_robin :
  forall reg cache context a b c,
    strategy context = ROUND_ROBIN ->
    _filter_models (ModelRouter.init reg) context = [a; b; c] ->
    forall n k,
      select_many n
        {| registry := reg; _round_robin_index := Z.of_nat k;
           _provider_cache := cache |} context
      = (map (fun i => Ok (nth_error [a; b; c] ((k + i) mod 3)%nat)) (seq 0 n),
         {| registry := reg; _round_robin_index := Z.of_nat (k + n);
            _provider_cache := cache |}).
Proof.
  intros reg cache context a b c Hs Hf.
  induction n as [|n IH]; intros k.
  - simpl. now rewrite Nat.add_0_r.
  - cbn [select_many]. unfold _select_model. rewrite Hs.
    unfold _select_round_robin.
    rewrite (@filter_models_registry
               {| registry := reg; _round_robin_index := Z.of_nat k;
                  _provider_cache := cache |}
               (ModelRouter.init reg) context eq_refl), Hf.
    cbn [registry _round_robin_index _provider_cache List.length].
    replace (Z.of_nat k + 1) with (Z.of_nat (S k)) by lia.
    rewrite IH. cbn [seq map]. f_equal.
    + f_equal.
      * unfold item. now rewrite <- Nat2Z.inj_mod, Nat2Z.id, Nat.add_0_r.
      * rewrite <- seq_shift, map_map. apply map_ext. intros i.
        now rewrite Nat.add_succ_comm.
    + now rewrite Nat.add_succ_comm.
Qed.

(** The body of [_select_round_robin], in a module that loads: on a new
    router whose filtered candidates for a round-robin context are the
    three models [a], [b], [c], consecutive selections rotate: call
    [i + 1] returns candidate [i mod 3], so the first four calls return
    [a], [b], [c], [a], and after [n] calls the index is [n]. *)
Theorem round_robin_rotates :
  forall reg context a b c,
    strategy context = ROUND_ROBIN ->
    _filter_models (ModelRouter.init reg) context = [a; b; c] ->
    (forall n,
        fst (select_many n (ModelRouter.init reg) context)
        = map (fun i => Ok (nth_error [a; b; c] (i mod 3)%nat)) (seq 0 n)
        /\ _round_robin_index (snd (select_many n (ModelRouter.init reg) context))
           = Z.of_nat n)
    /\ fst (select_many 4 (ModelRouter.init reg) context)
       = [Ok (Some a); Ok (Some b); Ok (Some c); Ok (Some a)].
Proof.
  intros reg context a b c Hs Hf.
  assert (H : forall n,
             select_many n (ModelRouter.init reg) context
             = (map (fun i => Ok (nth_error [a; b; c] (i mod 3)%nat)) (seq 0 n),
                {| registry := reg; _round_robin_index := Z.of_nat n;
                   _provider_cache := [] |})).
  { intros n. unfold ModelRouter.init.
    change 0 with (Z.of_nat 0).
    now rewrite (@select_many_round_robin reg [] context a b c Hs Hf n 0%nat). }
  split.
  - intros n. rewrite H. split; reflexivity.
  - rewrite H. reflexivity.
Qed.

Lemma round_robin_rotates_witness :
  fst (select_many 4 (ModelRouter.init registry_three)
         (default_context ROUND_ROBIN))
  = [Ok (Some gpt4); Ok (Some sonnet); Ok (Some haiku); Ok (Some gpt4)].
Proof.
  exact (proj2 (@round_robin_rotates registry_three
                  (default_context ROUND_ROBIN) gpt4 sonnet haiku
                  eq_refl eq_refl)).
Defined.

(** C7.  The module router.py as it is shipped does not load: its first
    line is the name [a] followed by a string literal, [a] is not a
    string prefix, and compiling the module raises [SyntaxError].  A
    program that imports the router and asks it for round-robin
    selections therefore gets that error and not one selection, whatever
    the registry, the context and the number of calls. *)
Theorem router_module_does_not_load :
  RouterModule.before_quote RouterModule.first_line = "a"
  /\ RouterModule.import_ModelRouter = Raise (Exn "SyntaxError" "invalid syntax")
  /\ forall n reg context,
      RouterModule.select_many_shipped n reg context
      = Raise (Exn "SyntaxError" "invalid syntax").
Proof. repeat split. Qed.

(** ** Balanced routing *)

Lemma sort_key_float_head {A} (key : A -> Q) (l : list A) :
  match head (sort_key_float key l) with
  | None => l = []
  | Some m => In m l /\ forall x, In x l -> (key m <= key x)%Q
  end.
Proof.
  unfold sort_key_float.
  destruct (sort_by (fun a b => Qle_bool (key a) (key b)) l) as [|m rest] eqn:E;
    simpl.
  - destruct l as [|x xs]; [reflexivity|].
    exfalso. revert E. apply sort_by_nonempty. discriminate.
  - apply sort_by_head_least in E.
    + destruct E as [Hin Hle]. split; [assumption|].
      intros x Hx. apply Qle_bool_iff. auto.
    + intros a b. apply Qle_bool_total.
    + intros a b c. apply Qle_bool_trans.
Qed.

Lemma cost_score_bounds (m : ModelInfo) :
  (cost_score m <= 1)%Q /\ ((0 <= avg_cost m)%Q -> (0 <= cost_score m)%Q).
Proof.
  unfold cost_score, Py.min.
  destruct (Qle_bool (avg_cost m / 0.1) 1.0) eqn:E.
  - apply Qle_bool_iff in E. split.
    + eapply Qle_trans; [exact E | discriminate].
    + intros H. apply Qle_shift_div_l; [reflexivity|].
      now rewrite Qmult_0_l.
  - split; [discriminate | intros _; discriminate].
Qed.

Lemma cost_score_below_ceiling (m : ModelInfo) :
  ((avg_cost m / 0.1 <= 1)%Q -> (cost_score m == avg_cost m / 0.1)%Q)
  /\ ((1 <= avg_cost m / 0.1)%Q -> (cost_score m == 1)%Q)
  /\ ((avg_cost m < 0)%Q -> (cost_score m < 0)%Q).
Proof.
  unfold cost_score, Py.min.
  assert (H1 : (1.0 == 1)%Q) by reflexivity.
  destruct (Qle_bool (avg_cost m / 0.1) 1.0) eqn:E.
  - apply Qle_bool_iff in E. rewrite H1 in E. split; [|split].
    + intros _. reflexivity.
    + intros H. apply Qle_antisym; assumption.
    + intros H. apply Qlt_shift_div_r; [reflexivity|].
      now rewrite Qmult_0_l.
  - assert (Hgt : (1 < avg_cost m / 0.1)%Q).
    { apply Qnot_le_lt. intros H. rewrite <- H1 in H.
      apply Qle_bool_iff in H. congruence. }
    split; [|split].
    + intros H. exfalso. apply (Qlt_not_le _ _ Hgt H).
    + intros _. exact H1.
    + intros H. exfalso. apply (Qlt_not_le _ _ Hgt).
      apply Qlt_le_weak. apply Qlt_trans with 0%Q; [|reflexivity].
      apply Qlt_shift_div_r; [reflexivity|]. now rewrite Qmult_0_l.
Qed.

(** C4, the claim as it stands, refuted in the two places the amendment
    changes.  Of an "opus" model at $0.09 and a "haiku" model at $0.001
    average cost per 1k tokens, the haiku model does not have the lower
    balanced score and is not the model selected.  And the cost term is
    not clipped to [0,1]: for a model registered with the costs -0.05 it
    is -0.5. *)
Lemma balanced_scenario_haiku_not_first :
  let router := ModelRouter.init registry_opus_haiku in
  let context := default_context BALANCED in
  (_filter_models router context = [opus; haiku]
   /\ (avg_cost opus == 0.09)%Q
   /\ (avg_cost haiku == 0.001)%Q
   /\ ~ (balance_score haiku < balance_score opus)%Q
   /\ fst (_select_model router context) <> Ok (Some haiku))
  /\ ((avg_cost rebate == -0.05)%Q
      /\ (cost_score rebate == -0.5)%Q
      /\ ~ (0 <= cost_score rebate)%Q).
Proof.
  repeat split; try reflexivity.
  - apply Qle_not_lt. apply Qle_bool_iff. reflexivity.
  - discriminate.
  - apply Qlt_not_le. reflexivity.
Qed.

(** C4, amended.  What [_select_balanced] does when it runs (that the
    module as shipped does not load is the subject of C7).  Each
    candidate is scored 0.4 x min(average cost / 0.10, 1) + 0.6 x (1 -
    quality tier): the cost term is the average cost over 0.10 up to the
    ceiling and 1 above it, so it lies in [0,1] for a cost that is not
    negative, and it is negative for a negative cost.  The candidate with
    the lowest score is selected, and of several with the lowest score
    the first in candidate order: every candidate before the selected
    one has a strictly higher score, every candidate after it a score at
    least as high; none is selected only when there is no candidate.  Of
    an "opus" model at $0.09 and a "haiku" model at $0.001 average cost
    the scores are 0.36 and 0.424: the opus model ranks first. *)
Theorem balanced_selects_least_score :
  (forall (self : ModelRouter.t) context,
      match _select_balanced self context with
      | None => _filter_models self context = []
      | Some m =>
          exists before after,
            _filter_models self context = (before ++ m :: after)%list
            /\ (forall x, In x before ->
                          (balance_score m < balance_score x)%Q)
            /\ (forall x, In x after ->
                          (balance_score m <= balance_score x)%Q)
      end)
  /\ (forall m,
         balance_score m
         = (0.4 * Py.min (avg_cost m / 0.1) 1.0 + 0.6 * (1 - quality_score m))%Q
         /\ ((avg_cost m / 0.1 <= 1)%Q -> (cost_score m == avg_cost m / 0.1)%Q)
         /\ ((1 <= avg_cost m / 0.1)%Q -> (cost_score m == 1)%Q)
         /\ (cost_score m <= 1)%Q
         /\ ((0 <= avg_cost m)%Q -> (0 <= cost_score m)%Q)
         /\ ((avg_cost m < 0)%Q -> (cost_score m < 0)%Q))
  /\ (_select_balanced (ModelRouter.init registry_opus_haiku)
        (default_context BALANCED) = Some opus
      /\ (balance_score opus == 0.36)%Q
      /\ (balance_score haiku == 0.424)%Q).
Proof.
  split; [|split].
  - intros self context. unfold _select_balanced.
    pose proof (sort_key_float_first balance_score (_filter_models self context))
      as H.
    destruct (_filter_models self context) as [|x xs] eqn:E; [reflexivity|].
    destruct (head (sort_key_float balance_score (x :: xs))); [exact H|].
    discriminate.
  - intros m.
    destruct (cost_score_below_ceiling m) as (Hlow & Hhigh & Hneg).
    destruct (cost_score_bounds m) as (Hle & Hge).
    repeat split; assumption.
  - repeat split; reflexivity.
Qed.

Lemma balanced_selects_least_score_witness :
  exists before after,
    [opus; haiku] = (before ++ opus :: after)%list
    /\ (forall x, In x before -> (balance_score opus < balance_score x)%Q)
    /\ (forall x, In x after -> (balance_score opus <= balance_score x)%Q).
Proof.
  pose proof (proj1 balanced_selects_least_score
                (ModelRouter.init registry_opus_haiku)
                (default_context BALANCED)) as H.
  change (_select_balanced (ModelRouter.init registry_opus_haiku)
            (default_context BALANCED)) with (Some opus) in H.
  change (_filter_models (ModelRouter.init registry_opus_haiku)
            (default_context BALANCED)) with [opus; haiku] in H.
  exact H.
Defined.

(** ** Finding models by capability *)

Lemma StronglySorted_weaken {A} (R R' : A -> A -> Prop) (l : list A) :
  (forall a b, R a b -> R' a b) -> StronglySorted R l -> StronglySorted R' l.
Proof.
  intros HR. induction 1 as [|x xs Hs IH Hall]; constructor; auto.
  eapply Forall_impl; [|exact Hall]. auto.
Qed.

Lemma cost_sum_avg (a b : ModelInfo) :
  Qle_bool (cost_sum a) (cost_sum b) = true -> (avg_cost a <= avg_cost b)%Q.
Proof.
  rewrite Qle_bool_iff. unfold avg_cost, cost_sum. intros H.
  unfold Qdiv. apply Qmult_le_compat_r; [exact H | discriminate].
Qed.

Lemma matches_function_calling min max (m : ModelInfo) :
  matches "function_calling" min max m = true <->
  is_available m = true
  /\ supports_function_calling (capabilities m) = true
  /\ (forall n, min = Some n -> n <> 0 -> n <= max_context_length (capabilities m))
  /\ (forall c, max = Some c -> ~ (c == 0)%Q -> (avg_cost m <= c)%Q).
Proof.
  unfold matches.
  change (String.eqb "function_calling" "function_calling") with true.
  change (String.eqb "function_calling" "vision") with false.
  change (String.eqb "function_calling" "streaming") with false.
  change (String.eqb "function_calling" "json_mode") with false.
  destruct (is_available m); simpl; [|intuition discriminate].
  destruct (supports_function_calling (capabilities m)); simpl;
    [|intuition discriminate].
  assert (Hmin :
            (truthy_int min
             && (max_context_length (capabilities m)
                 <? match min with Some n => n | None => 0 end)) = false
            <-> forall n, min = Some n -> n <> 0 ->
                          n <= max_context_length (capabilities m)).
  { destruct min as [n|]; simpl.
    - destruct (Z.eqb_spec n 0) as [->|Hn]; simpl.
      + split; [intros _ n [= <-] Hn; congruence | reflexivity].
      + rewrite Z.ltb_ge. split.
        * intros H n' [= <-] _. exact H.
        * intros H. now apply H.
    - split; [intros _ n [=] | reflexivity]. }
  assert (Hmax :
            (truthy_float max
             && negb (Qle_bool (avg_cost m)
                        match max with Some c => c | None => 0%Q end)) = false
            <-> forall c, max = Some c -> ~ (c == 0)%Q -> (avg_cost m <= c)%Q).
  { destruct max as [c|]; simpl.
    - destruct (Qeq_bool c 0) eqn:Ec; simpl.
      + apply Qeq_bool_iff in Ec.
        split; [intros _ c' [= <-] Hc; contradiction | reflexivity].
      + assert (Hc : ~ (c == 0)%Q).
        { intros Hc. apply Qeq_bool_iff in Hc. congruence. }
        rewrite negb_false_iff, Qle_bool_iff. split.
        * intros H c' [= <-] _. exact H.
        * intros H. now apply H.
    - split; [intros _ c [=] | reflexivity]. }
  destruct (truthy_int min
            && (max_context_length (capabilities m)
                <? match min with Some n => n | None => 0 end)) eqn:E1.
  - split; [discriminate|]. intros (_ & _ & H & _).
    apply Hmin in H. discriminate.
  - destruct (truthy_float max
              && negb (Qle_bool (avg_cost m)
                         match max with Some c => c | None => 0%Q end)) eqn:E2.
    + split; [discriminate|]. intros (_ & _ & _ & H).
      apply Hmax in H. discriminate.
    + split; [|reflexivity]. intros _.
      repeat split; [now apply Hmin | now apply Hmax].
Qed.

(** What [find_models_by_capability("function_calling", ...)] computes:
    the registered models that are available, support function calling,
    have at least [min_context_length] tokens of context when that
    threshold passes its truth test, and cost at most [max_cost] on
    average when that threshold passes its truth test; each such model is
    returned as often as it is registered, and the list is in ascending
    order of average cost. *)
Theorem find_models_function_calling_sorted :
  forall (self : ModelRegistry.t) min max,
    let found := find_models_by_capability self "function_calling" min max in
    (forall m,
        In m found <->
        In m (dict_values (_models self))
        /\ is_available m = true
        /\ supports_function_calling (capabilities m) = true
        /\ (forall n, min = Some n -> n <> 0 ->
                      n <= max_context_length (capabilities m))
        /\ (forall c, max = Some c -> ~ (c == 0)%Q -> (avg_cost m <= c)%Q))
    /\ Permutation found
         (filter (matches "function_calling" min max) (dict_values (_models self)))
    /\ StronglySorted (fun a b => (avg_cost a <= avg_cost b)%Q) found.
Proof.
  intros self min max found. unfold found, find_models_by_capability.
  unfold sort_key_float. split; [|split].
  - intros m. rewrite sort_by_in, filter_In, matches_function_calling.
    reflexivity.
  - apply sort_by_perm.
  - eapply StronglySorted_weaken; [|apply sort_by_sorted].
    + intros a b. apply cost_sum_avg.
    + intros a b. apply Qle_bool_total.
    + intros a b c. apply Qle_bool_trans.
Qed.

(** C8.  A [max_cost] of 0.0 is not applied.  The cost restriction is
    guarded by the truth value of [max_cost], and 0.0 is false: the
    search with [max_cost = 0.0] returns what the search without a
    [max_cost] returns, for every registry, capability and
    [min_context_length].  With gpt-4 registered (0.03 and 0.06 per 1k
    tokens, average 0.045, available, function calling), asking for
    function-calling models of average cost at most 0.0 returns gpt-4,
    whose average cost is above 0.0: the result is not restricted to
    average cost <= [max_cost]. *)
Theorem find_models_max_cost_zero_is_ignored :
  (forall (self : ModelRegistry.t) capability min,
      find_models_by_capability self capability min (Some 0%Q)
      = find_models_by_capability self capability min None)
  /\ find_models_by_capability registry_gpt4 "function_calling" None (Some 0%Q)
     = [gpt4]
  /\ is_available gpt4 = true
  /\ supports_function_calling (capabilities gpt4) = true
  /\ (avg_cost gpt4 == 0.045)%Q
  /\ ~ (avg_cost gpt4 <= 0)%Q.
Proof.
  split; [|repeat split].
  - intros self capability min. reflexivity.
  - apply Qlt_not_le. reflexivity.
Qed.

(** ** Constructing an [AgentResponse] *)

(** A required field that the caller does not supply makes the
    construction raise, whatever the other fields and validators are. *)
Lemma validate_model_missing_required :
  forall cls fields kwargs f,
    In f fields ->
    default f = None ->
    dict_get kwargs (Pydantic.name f) = None ->
    forall values, exists e, validate_model cls fields kwargs values = Raise e.
Proof.
  intros cls fields kwargs f Hin Hreq Hmiss.
  induction fields as [|g fields IH]; [contradiction|].
  intros values. destruct Hin as [->|Hin].
  - simpl. rewrite Hmiss, Hreq. eexists. reflexivity.
  - specialize (IH Hin). simpl.
    destruct (dict_get kwargs (Pydantic.name g)) as [v|].
    + destruct (type_ g _); [apply IH | eexists; reflexivity].
    + destruct (default g) as [d|]; [|eexists; reflexivity].
      destruct (pre_always g) as [validator|]; [|apply IH].
      destruct (type_ g _); [apply IH | eexists; reflexivity].
Qed.

Lemma calculate_execution_time_none (values : dict) :
  before_execution_time values ->
  calculate_execution_time PNone values = PNone.
Proof.
  unfold before_execution_time, dict_keys. intros H.
  destruct values as [|[k1 v1] [|[k2 v2] [|[k3 v3] [|[k4 v4] [|[k5 v5]
    [|[k6 v6] [|? ?]]]]]]]; try discriminate.
  simpl in H. injection H as -> -> -> -> -> ->. reflexivity.
Qed.

(** C5.  An [AgentResponse] built without [execution_time], or with
    [execution_time=None], is not built at all: the construction raises a
    validation error, whatever [started_at] and [completed_at] are, and no
    execution time is derived from them. *)
Theorem execution_time_is_not_derived :
  forall now kwargs,
    dict_get kwargs "execution_time" = None
    \/ dict_get kwargs "execution_time" = Some PNone ->
    exists e, AgentResponse now kwargs = Raise e.
Proof.
  intros now kwargs [Hmiss|Hnone].
  - unfold AgentResponse, construct.
    destruct (@validate_model_missing_required "AgentResponse"
                (AgentResponse_fields now) kwargs
                {| Pydantic.name := "execution_time"; default := None;
                   pre_always := Some calculate_execution_time;
                   type_ := as_float |}) with (values := @nil (string * pyval))
      as [e He]; [simpl; tauto | reflexivity | exact Hmiss |].
    rewrite He. eexists. reflexivity.
  - unfold AgentResponse, construct, AgentResponse_fields.
    cbn [validate_model Pydantic.name default pre_always type_
         required optional app].
    destruct (dict_get kwargs "answer") as [v1|]; [|eexists; reflexivity].
    destruct (as_str v1) as [a1|]; [|eexists; reflexivity].
    destruct (dict_get kwargs "citations") as [v2|];
      [destruct (as_list (as_model "Citation") v2) as [a2|];
       [|eexists; reflexivity]|];
    (destruct (dict_get kwargs "thoughts") as [v3|];
      [destruct (as_list (as_model "AgentThought") v3) as [a3|];
       [|eexists; reflexivity]|]);
    (destruct (dict_get kwargs "agent_id") as [v4|]; [|eexists; reflexivity]);
    (destruct (as_str v4) as [a4|]; [|eexists; reflexivity]);
    (destruct (dict_get kwargs "agent_type") as [v5|]; [|eexists; reflexivity]);
    (destruct (as_enum AgentType v5) as [a5|]; [|eexists; reflexivity]);
    (destruct (dict_get kwargs "status") as [v6|];
      [destruct (as_enum AgentStatus v6) as [a6|]; [|eexists; reflexivity]|]);
    rewrite Hnone;
    (rewrite calculate_execution_time_none by reflexivity);
    eexists; reflexivity.
Qed.

Lemma execution_time_is_not_derived_witness :
  exists e,
    AgentResponse 0
      [("answer", PStr "ok"); ("agent_id", PStr "agent-1");
       ("agent_type", PStr N8N);
       ("started_at", PDatetime 1000000);
       ("completed_at", PDatetime 6000000)] = Raise e.
Proof.
  apply (@execution_time_is_not_derived 0
           [("answer", PStr "ok"); ("agent_id", PStr "agent-1");
            ("agent_type", PStr N8N);
            ("started_at", PDatetime 1000000);
            ("completed_at", PDatetime 6000000)]).
  left. reflexivity.
Defined.

(** ** The n8n adapter: [execute] *)


(** Building the error response does not fail. *)
Lemma error_response_ok self e start_time started_at now :
  error_response self e start_time started_at now
  = Ok (failed_response self e start_time started_at now).
Proof. reflexivity. Qed.

(** [execute] always returns a response. *)
Lemma execute_never_raises self query context w :
  exists response, fst (execute self query context w) = Ok response.
Proof.
  unfold execute.
  destruct (try_block self query context w) as [[response|e] w1]; simpl.
  - now exists response.
  - rewrite error_response_ok. eexists. reflexivity.
Qed.

Lemma execute_after_failure self query context w e :
  fst (try_block self query context w) = Raise e ->
  execute self query context w
  = (Ok (failed_response self e (clock w) (clock w)
           (clock (snd (try_block self query context w)))),
     snd (try_block self query context w)).
Proof.
  intros H. unfold execute.
  destruct (try_block self query context w) as [body w1].
  simpl in H. subst body. reflexivity.
Qed.

(** ** The n8n adapter: [execute_streaming] *)

Lemma text_chunks_are_text answer now :
  Forall (fun c => chunk_type c = "text") (text_chunks answer now).
Proof.
  unfold text_chunks. apply Forall_forall. intros c Hc.
  apply in_map_iff in Hc. destruct Hc as (s & <- & _). reflexivity.
Qed.

Lemma stream_body_failed_response self e start_time started_at now now' :
  stream_body (Ok (failed_response self e start_time started_at now)) now'
  = ((text_chunks (apology e) now' ++ [completion_chunk now'])%list, None).
Proof. reflexivity. Qed.

(** C1.  Whenever the [try] block of [execute] ends in an exception [e]
    (the endpoint is unreachable, answers with a status that is not 2xx,
    or sends a body that is not the JSON expected), [execute] returns a
    response with status [failed], [error = str(e)] and an answer that
    embeds [str(e)].  [execute_streaming] then yields the status chunk, the
    text chunks of that apology and a [completion] chunk: its last chunk
    is not an [error] chunk, and no chunk of the stream is. *)
Theorem execute_streaming_failure_ends_in_completion :
  forall self query context w e,
    fst (try_block self query context w) = Raise e ->
    let w1 := snd (try_block self query context w) in
    (exists response,
        execute self query context w = (Ok response, w1)
        /\ attr response "status" = Ok (PStr FAILED)
        /\ attr response "error" = Ok (PStr (exn_str e))
        /\ attr response "answer" = Ok (PStr (apology e)))
    /\ fst (execute_streaming self query context w)
       = (status_chunk (clock w)
            :: text_chunks (apology e) (clock w1)
            ++ [completion_chunk (clock w1)])%list
    /\ Forall (fun c => chunk_type c <> "error")
         (fst (execute_streaming self query context w))
    /\ chunk_type
         (last (fst (execute_streaming self query context w))
            (status_chunk 0)) = "completion".
Proof.
  intros self query context w e H w1.
  pose proof (execute_after_failure self query context w H) as Hex.
  fold w1 in Hex.
  assert (Hs : fst (execute_streaming self query context w)
               = (status_chunk (clock w)
                    :: text_chunks (apology e) (clock w1)
                    ++ [completion_chunk (clock w1)])%list).
  { unfold execute_streaming. rewrite Hex.
    rewrite stream_body_failed_response. cbn [fst].
    now rewrite app_nil_r. }
  split; [|split; [exact Hs|split]].
  - eexists. split; [exact Hex|]. repeat split.
  - rewrite Hs. constructor; [discriminate|].
    apply Forall_app. split.
    + eapply Forall_impl; [|apply text_chunks_are_text].
      intros c Hc. rewrite Hc. discriminate.
    + constructor; [discriminate | constructor].
  - rewrite Hs.
    change (status_chunk (clock w)
              :: text_chunks (apology e) (clock w1)
              ++ [completion_chunk (clock w1)])%list
      with ((status_chunk (clock w) :: text_chunks (apology e) (clock w1))
              ++ [completion_chunk (clock w1)])%list.
    now rewrite last_last.
Qed.

Lemma execute_streaming_failure_ends_in_completion_witness :
  fst (execute_streaming (adapter 3) "hello" context unreachable)
  = [status_chunk 0;
     chunk "text"
       "I apologize, but the workflow encountered an error: All connection attempts failed. "
       [] 3000000;
     completion_chunk 3000000].
Proof.
  exact (proj1 (proj2 (@execute_streaming_failure_ends_in_completion
                         (adapter 3) "hello" context unreachable
                         connect_error eq_refl))).
Defined.

(** ** The n8n adapter: retries *)

Lemma after_failures_endpoint self h p m : forall a w,
  endpoint (after_failures self h p a m w) = endpoint w.
Proof.
  induction m as [|m IH]; intros a w; simpl; [reflexivity|].
  rewrite IH. destruct (Z.of_nat a <? retry_count self - 1); reflexivity.
Qed.

Lemma after_failures_sent self h p m : forall a w,
  List.length (sent (after_failures self h p a m w))
  = (List.length (sent w) + m)%nat.
Proof.
  induction m as [|m IH]; intros a w; simpl; [lia|].
  rewrite IH.
  destruct (Z.of_nat a <? retry_count self - 1); simpl;
    rewrite length_app; simpl; lia.
Qed.

(** All the attempts counted are followed by a sleep when more attempts may follow them. *)
Lemma after_failures_slept self h p m : forall a w,
  Z.of_nat (a + m) <= retry_count self - 1 ->
  slept (after_failures self h p a m w)
  = (slept w ++ map (fun j => 2 ^ Z.of_nat j) (seq a m))%list.
Proof.
  induction m as [|m IH]; intros a w Hle; simpl.
  - now rewrite app_nil_r.
  - rewrite IH by lia.
    destruct (Z.ltb_spec (Z.of_nat a) (retry_count self - 1)); [|lia].
    simpl. now rewrite <- app_assoc.
Qed.

Lemma after_failures_last self h p m : forall a w,
  Z.of_nat (a + S m) = retry_count self ->
  slept (after_failures self h p a (S m) w)
  = (slept w ++ map (fun j => 2 ^ Z.of_nat j) (seq a m))%list.
Proof.
  induction m as [|m IH]; intros a w Hle.
  - simpl. destruct (Z.ltb_spec (Z.of_nat a) (retry_count self - 1)); [lia|].
    simpl. now rewrite app_nil_r.
  - change (after_failures self h p a (S (S m)) w)
      with (after_failures self h p (S a) (S m)
              (if Z.of_nat a <? retry_count self - 1
               then sleep (2 ^ Z.of_nat a) (posted h p w)
               else posted h p w)).
    rewrite IH by lia.
    destruct (Z.ltb_spec (Z.of_nat a) (retry_count self - 1)); [|lia].
    simpl. now rewrite <- app_assoc.
Qed.

(** A request that meets a response with a status that is not a success. *)
Lemma post_status_error self p h w r :
  endpoint w (List.length (sent w)) = Response r ->
  is_success (status_code r) = false ->
  post self p h w = (Raise (status_error r), posted h p w).
Proof. intros He Hs. unfold post. now rewrite He, Hs. Qed.

Lemma post_success self p h w r :
  endpoint w (List.length (sent w)) = Response r ->
  is_success (status_code r) = true ->
  post self p h w = (json r, posted h p w).
Proof. intros He Hs. unfold post. now rewrite He, Hs. Qed.

Lemma retry_loop_failures self p h r rest m : forall a w last,
  is_success (status_code r) = false ->
  (forall i, (i < m)%nat ->
             endpoint w (List.length (sent w) + i) = Response r) ->
  retry_loop self p h (map Z.of_nat (seq a m) ++ rest) last w
  = retry_loop self p h rest
      (match m with O => last | S _ => Some (status_error r) end)
      (after_failures self h p a m w).
Proof.
  induction m as [|m IH]; intros a w last Hs Hf; [reflexivity|].
  cbn [seq map app retry_loop].
  rewrite (@post_status_error self p h w r); [|rewrite <- (Hf 0%nat) by lia; f_equal; lia|assumption].
  cbn [after_failures].
  set (w2 := if Z.of_nat a <? retry_count self - 1
             then sleep (2 ^ Z.of_nat a) (posted h p w) else posted h p w).
  rewrite IH; [destruct m; reflexivity|assumption|].
  intros i Hi.
  assert (Hw2 : endpoint w2 = endpoint w /\ List.length (sent w2) = S (List.length (sent w))).
  { unfold w2. destruct (Z.of_nat a <? retry_count self - 1); simpl;
      rewrite length_app; simpl; split; auto; lia. }
  destruct Hw2 as [-> ->]. rewrite <- (Hf (S i)) by lia. f_equal. lia.
Qed.

Lemma range_split (n : Z) (k : nat) :
  Z.of_nat k < n ->
  range n = (map Z.of_nat (seq 0 k)
             ++ Z.of_nat k :: map Z.of_nat (seq (S k) (Z.to_nat n - k - 1)))%list.
Proof.
  intros H. unfold range.
  replace (Z.to_nat n) with (k + S (Z.to_nat n - k - 1))%nat at 1 by lia.
  now rewrite seq_app, map_app.
Qed.

Lemma call_succeeds_after_failures self p h w (k : nat) r_fail r_ok data :
  is_success (status_code r_fail) = false ->
  is_success (status_code r_ok) = true ->
  json r_ok = Ok data ->
  (forall i, (i < k)%nat ->
             endpoint w (List.length (sent w) + i) = Response r_fail) ->
  endpoint w (List.length (sent w) + k) = Response r_ok ->
  Z.of_nat k < retry_count self ->
  _call_webhook_with_retry self p h w
  = (Ok data, posted h p (after_failures self h p 0 k w)).
Proof.
  intros Hf Hok Hdata Hfail Hlast Hk. unfold _call_webhook_with_retry.
  rewrite (@range_split _ _ Hk).
  rewrite (@retry_loop_failures self p h r_fail _ k 0%nat w None Hf Hfail).
  cbn [retry_loop].
  rewrite (@post_success self p h _ r_ok);
    [now rewrite Hdata| |assumption].
  now rewrite after_failures_endpoint, after_failures_sent.
Qed.

Lemma call_exhausted self p h w (k : nat) r_fail :
  is_success (status_code r_fail) = false ->
  (forall i, (i < k)%nat ->
             endpoint w (List.length (sent w) + i) = Response r_fail) ->
  0 < retry_count self <= Z.of_nat k ->
  _call_webhook_with_retry self p h w
  = (Raise (status_error r_fail),
     after_failures self h p 0 (Z.to_nat (retry_count self)) w).
Proof.
  intros Hf Hfail Hn. unfold _call_webhook_with_retry, range.
  rewrite <- (app_nil_r (map Z.of_nat _)).
  rewrite (@retry_loop_failures self p h r_fail [] _ 0%nat w None Hf).
  - destruct (Z.to_nat (retry_count self)) eqn:E; [lia | reflexivity].
  - intros i Hi. apply Hfail. lia.
Qed.

(** C3, the scenario as the claim has it, refuted: against an endpoint
    that answers 500 three times and then 200 with [{"answer": "ok"}], an
    adapter with [retry_count = 3] makes three requests, sleeps 1 and 2
    seconds between them, and returns a response with status [failed]. *)
Lemma three_failures_exhaust_retry_count_three :
  exists response w',
    execute (adapter 3) "hello" context (fails_then_ok 3 answer_ok)
    = (Ok response, w')
    /\ attr response "status" = Ok (PStr FAILED)
    /\ attr response "status" <> Ok (PStr COMPLETED)
    /\ attr response "answer" <> Ok (PStr "ok")
    /\ List.length (sent w') = 3%nat
    /\ slept w' = [1; 2].
Proof.
  eexists _, _. split; [reflexivity|].
  repeat split; discriminate.
Qed.

(** C3, amended.  [retry_count] is the number of attempts.  Against an
    endpoint that answers HTTP 500 to the next [k] requests and then 200
    with [{"answer": "ok"}]: when [retry_count > k], attempt [k + 1]
    succeeds and [execute] returns status [completed] with answer "ok" and
    no error, after [k + 1] requests; when [1 <= retry_count <= k], every
    attempt fails and [execute] returns status [failed] with the error of
    the last attempt, after [retry_count] requests.  After failed attempt
    number [i] (from 0) the adapter sleeps [2^i] seconds, except after the
    last attempt it may make.  So three 500s are survived by
    [retry_count = 4], not 3; the third attempt succeeds with
    [retry_count = 3] when the endpoint fails twice, and [retry_count = 2]
    fails then. *)
Theorem retry_count_is_the_number_of_attempts :
  forall self query context w (k : nat) r_fail r_ok,
    status_code r_fail = 500 ->
    status_code r_ok = 200 ->
    json r_ok = Ok answer_ok ->
    (forall i, (i < k)%nat ->
               endpoint w (List.length (sent w) + i) = Response r_fail) ->
    endpoint w (List.length (sent w) + k) = Response r_ok ->
    (Z.of_nat k < retry_count self ->
     exists response w',
       execute self query context w = (Ok response, w')
       /\ attr response "status" = Ok (PStr COMPLETED)
       /\ attr response "answer" = Ok (PStr "ok")
       /\ attr response "error" = Ok PNone
       /\ List.length (sent w') = (List.length (sent w) + k + 1)%nat
       /\ slept w' = (slept w ++ backoff k)%list)
    /\ (0 < retry_count self <= Z.of_nat k ->
        exists response w',
          execute self query context w = (Ok response, w')
          /\ attr response "status" = Ok (PStr FAILED)
          /\ attr response "error" = Ok (PStr (exn_str (status_error r_fail)))
          /\ attr response "answer" = Ok (PStr (apology (status_error r_fail)))
          /\ List.length (sent w')
             = (List.length (sent w) + Z.to_nat (retry_count self))%nat
          /\ slept w'
             = (slept w ++ backoff (Z.to_nat (retry_count self) - 1))%list).
Proof.
  intros self query context w k r_fail r_ok H500 H200 Hjson Hfail Hlast.
  assert (Hf : is_success (status_code r_fail) = false) by now rewrite H500.
  assert (Hok : is_success (status_code r_ok) = true) by now rewrite H200.
  split; intros Hn.
  - unfold execute, try_block.
    rewrite (@call_succeeds_after_failures self _ _ w k r_fail r_ok _
               Hf Hok Hjson Hfail Hlast Hn).
    eexists _, _. split; [reflexivity|].
    repeat split.
    + cbn [sent posted]. rewrite length_app, after_failures_sent. simpl. lia.
    + cbn [slept posted]. rewrite after_failures_slept by lia. reflexivity.
  - unfold execute, try_block.
    rewrite (@call_exhausted self _ _ w k r_fail Hf Hfail Hn).
    eexists _, _. split; [reflexivity|].
    repeat split.
    + now rewrite after_failures_sent.
    + destruct (Z.to_nat (retry_count self)) as [|m] eqn:E; [lia|].
      rewrite after_failures_last by lia.
      now rewrite Nat.sub_succ, Nat.sub_0_r.
Qed.

Lemma retry_count_is_the_number_of_attempts_witness :
  (exists response w',
      execute (adapter 4) "hello" context (fails_then_ok 3 answer_ok)
      = (Ok response, w')
      /\ attr response "status" = Ok (PStr COMPLETED)
      /\ attr response "answer" = Ok (PStr "ok")
      /\ attr response "error" = Ok PNone
      /\ List.length (sent w') = 4%nat
      /\ slept w' = [1; 2; 4])
  /\ (exists response w',
         execute (adapter 2) "hello" context (fails_then_ok 2 answer_ok)
         = (Ok response, w')
         /\ attr response "status" = Ok (PStr FAILED)
         /\ attr response "error"
            = Ok (PStr "Server error '500 Internal Server Error'")
         /\ attr response "answer"
            = Ok (PStr (apology (status_error status_500)))
         /\ List.length (sent w') = 2%nat
         /\ slept w' = [1]).
Proof.
  split.
  - apply (@retry_count_is_the_number_of_attempts
             (adapter 4) "hello" context (fails_then_ok 3 answer_ok)
             3%nat status_500 (ok_200 answer_ok));
      first [ reflexivity | simpl; lia
            | intros i Hi; repeat (destruct i as [|i]; [reflexivity|]); lia ].
  - apply (@retry_count_is_the_number_of_attempts
             (adapter 2) "hello" context (fails_then_ok 2 answer_ok)
             2%nat status_500 (ok_200 answer_ok));
      first [ reflexivity | simpl; lia
            | intros i Hi; repeat (destruct i as [|i]; [reflexivity|]); lia ].
Defined.

(** ** The n8n adapter: a reply without an answer *)

Lemma convert_citation_shape c :
  citation_shape c = true ->
  exists attrs, convert_citation c = Ok (PObj "Citation" attrs).
Proof.
  destruct c as [| | | | | |c| |]; try discriminate.
  unfold citation_shape, member. intros H.
  apply andb_prop in H. destruct H as [H Hm].
  apply andb_prop in H. destruct H as [H Hr].
  apply andb_prop in H. destruct H as [Hs Hc].
  unfold convert_citation, get, Citation, construct, Citation_fields.
  destruct (dict_get c "source") as [[]|]; try discriminate;
  destruct (dict_get c "content") as [[]|]; try discriminate;
  destruct (dict_get c "relevance_score") as [[]|]; try discriminate;
  destruct (dict_get c "metadata") as [[]|]; try discriminate;
  eexists; reflexivity.
Qed.

Lemma convert_citations_shape l :
  forallb citation_shape l = true ->
  exists cs,
    mapM convert_citation l = Ok cs
    /\ all_some (map (as_model "Citation") cs) = Some cs.
Proof.
  induction l as [|c l IH]; simpl; intros H.
  - exists []. split; reflexivity.
  - apply andb_prop in H. destruct H as [Hc Hl].
    destruct (convert_citation_shape _ Hc) as [attrs ->].
    destruct (IH Hl) as (cs & -> & Hcs).
    eexists. split; [reflexivity|]. simpl. now rewrite Hcs.
Qed.

Lemma all_some_strings l :
  forallb is_str l = true -> all_some (map as_str l) = Some l.
Proof.
  induction l as [|v l IH]; simpl; intros H; [reflexivity|].
  apply andb_prop in H. destruct H as [Hv Hl].
  destruct v; try discriminate. simpl. now rewrite (IH Hl).
Qed.

Lemma parse_response_without_answer self d start_time started_at now :
  dict_get d "answer" = None ->
  optional_members_shape d = true ->
  exists response,
    parse_response self (PDict d) start_time started_at now = Ok response
    /\ attr response "status" = Ok (PStr COMPLETED)
    /\ attr response "answer" = Ok (PStr "No response from workflow")
    /\ attr response "error" = Ok PNone.
Proof.
  intros Ha Hshape. unfold optional_members_shape, member in Hshape.
  apply andb_prop in Hshape. destruct Hshape as [Hc Hm].
  unfold parse_response, get. rewrite Ha. cbn [bind].
  assert (Hcit : exists cs,
             bind (iter match dict_get d "citations" with
                        | Some v => v | None => PList [] end)
               (mapM convert_citation) = Ok cs
             /\ all_some (map (as_model "Citation") cs) = Some cs).
  { destruct (dict_get d "citations") as [[]|]; try discriminate.
    - apply (convert_citations_shape _ Hc).
    - exists []. split; reflexivity. }
  destruct Hcit as (cs & Hcs & Hvalid).
  destruct (iter match dict_get d "citations" with
                 | Some v => v | None => PList [] end) as [items|];
    [|discriminate].
  cbn [bind] in Hcs |- *. rewrite Hcs. cbn [bind].
  assert (Hmeta : exists m ts,
             match dict_get d "metadata" with
             | Some v => v | None => PDict [] end = PDict m
             /\ match dict_get m "tools_used" with
                | Some v => v | None => PList [] end = PList ts
             /\ all_some (map as_str ts) = Some ts).
  { destruct (dict_get d "metadata") as [[| | | | | |m| |]|]; try discriminate.
    - unfold metadata_shape, member in Hm. exists m.
      destruct (dict_get m "tools_used") as [[]|]; try discriminate.
      + eexists. repeat split. now apply all_some_strings.
      + exists []. repeat split.
    - exists [], []. repeat split. }
  destruct Hmeta as (m & ts & -> & Hts & Htsv).
  rewrite Hts. cbn [bind unpack].
  unfold AgentResponse, construct, AgentResponse_fields.
  cbn [validate_model Pydantic.name default pre_always type_
       required optional app dict_get String.eqb Ascii.eqb Bool.eqb
       as_str as_list].
  rewrite Hvalid, Htsv. eexists. split; [reflexivity|]. repeat split.
Qed.

(** C10, the claim as it stands, refuted: the endpoint answers 200 with
    the JSON object [{"citations": null}], which has no "answer" key, and
    [execute] returns a response with status [failed] whose answer is not
    the default text. *)
Lemma reply_without_answer_can_fail :
  let reply := PDict [("citations", PNone)] in
  dict_get [("citations", PNone)] "answer" = None
  /\ exists response w',
      execute (adapter 3) "hello" context (fails_then_ok 0 reply)
      = (Ok response, w')
      /\ attr response "status" = Ok (PStr FAILED)
      /\ attr response "error"
         = Ok (PStr "'NoneType' object is not iterable")
      /\ attr response "answer" <> Ok (PStr "No response from workflow").
Proof.
  split; [reflexivity|].
  eexists _, _. split; [reflexivity|].
  repeat split. discriminate.
Qed.

(** C10, amended.  If the endpoint answers the first attempt with a 2xx
    status and a JSON object that has no "answer" key and whose optional
    members have the documented shapes ("citations" absent or an array of
    objects with string "source" and "content", a number or null as
    "relevance_score" and an object as "metadata"; "metadata" absent or an
    object whose "tools_used" is absent or an array of strings), then
    [execute] returns status [completed] with the answer "No response
    from workflow" and no error, after that one request and without
    sleeping. *)
Theorem reply_without_answer_is_completed :
  forall self query context w r d,
    0 < retry_count self ->
    endpoint w (List.length (sent w)) = Response r ->
    is_success (status_code r) = true ->
    json r = Ok (PDict d) ->
    dict_get d "answer" = None ->
    optional_members_shape d = true ->
    exists response w',
      execute self query context w = (Ok response, w')
      /\ attr response "status" = Ok (PStr COMPLETED)
      /\ attr response "answer" = Ok (PStr "No response from workflow")
      /\ attr response "error" = Ok PNone
      /\ List.length (sent w') = S (List.length (sent w))
      /\ slept w' = slept w.
Proof.
  intros self query context w r d Hn Hr Hok Hjson Ha Hshape.
  unfold execute, try_block.
  rewrite (@call_succeeds_after_failures self (payload_of query context)
             (headers_of self) w 0%nat status_500 r (PDict d)
             eq_refl Hok Hjson);
    [|intros i Hi; lia | now rewrite Nat.add_0_r | exact Hn].
  cbn [bind after_failures].
  destruct (@parse_response_without_answer self d (clock w) (clock w)
              (clock (posted (headers_of self) (payload_of query context) w))
              Ha Hshape) as (response & -> & Hs & Hans & He).
  exists response. eexists. split; [reflexivity|].
  repeat split; try assumption.
  cbn [sent posted]. rewrite length_app. simpl. lia.
Qed.

Lemma reply_without_answer_is_completed_witness :
  exists response w',
    execute (adapter 3) "hello" context
      (fails_then_ok 0
         (PDict [("citations",
                  PList [PDict [("source", PStr "doc-1");
                                ("content", PStr "text");
                                ("relevance_score", PFloat 0.9)]]);
                 ("metadata", PDict [("tools_used", PList [PStr "search"])])]))
    = (Ok response, w')
    /\ attr response "status" = Ok (PStr COMPLETED)
    /\ attr response "answer" = Ok (PStr "No response from workflow")
    /\ attr response "error" = Ok PNone
    /\ List.length (sent w') = 1%nat
    /\ slept w' = [].
Proof.
  apply (@reply_without_answer_is_completed
           (adapter 3) "hello" context
           (fails_then_ok 0
              (PDict [("citations",
                       PList [PDict [("source", PStr "doc-1");
                                     ("content", PStr "text");
                                     ("relevance_score", PFloat 0.9)]]);
                      ("metadata",
                       PDict [("tools_used", PList [PStr "search"])])]))
           (ok_200
              (PDict [("citations",
                       PList [PDict [("source", PStr "doc-1");
                                     ("content", PStr "text");
                                     ("relevance_score", PFloat 0.9)]]);
                      ("metadata",
                       PDict [("tools_used", PList [PStr "search"])])]))
           [("citations",
             PList [PDict [("source", PStr "doc-1");
                           ("content", PStr "text");
                           ("relevance_score", PFloat 0.9)]]);
            ("metadata", PDict [("tools_used", PList [PStr "search"])])]);
    try reflexivity.
Defined.

(* ================================================================== *)
(** * Further properties of the router and the model registry *)
(* ================================================================== *)


Lemma filter_filter {A} (f g : A -> bool) l :
  filter f (filter g l) = filter (fun x => g x && f x) l.
Proof.
  induction l as [|x l IH]; simpl; [reflexivity|].
  destruct (g x); simpl; [destruct (f x)|]; now rewrite IH.
Qed.

Lemma filter_if {A} (b : bool) (f : A -> bool) l :
  (if b then filter f l else l) = filter (fun x => negb b || f x) l.
Proof.
  destruct b; simpl; [reflexivity|].
  induction l as [|x l IH]; simpl; [reflexivity | now rewrite <- IH].
Qed.

Lemma filter_capability_filter models capability :
  filter_capability models capability
  = filter (has_capability capability) models.
Proof.
  unfold filter_capability, has_capability.
  destruct (String.eqb capability "function_calling"); [reflexivity|].
  destruct (String.eqb capability "vision"); [reflexivity|].
  destruct (String.eqb capability "streaming"); [reflexivity|].
  destruct (String.eqb capability "json_mode"); [reflexivity|].
  induction models as [|x l IH]; simpl; [reflexivity | now rewrite <- IH].
Qed.

Lemma fold_filter_capability caps : forall (f : ModelInfo -> bool) l,
  fold_left filter_capability caps (filter f l)
  = filter (fun m => f m && forallb (fun c => has_capability c m) caps) l.
Proof.
  induction caps as [|c caps IH]; intros f l; simpl.
  - apply filter_ext. intros m. now rewrite andb_true_r.
  - rewrite filter_capability_filter, filter_filter, IH.
    apply filter_ext. intros m. now rewrite andb_assoc.
Qed.

Lemma filter_models_eligible (self : ModelRouter.t) context :
  _filter_models self context
  = filter (eligible context) (dict_values (_models (registry self))).
Proof.
  unfold _filter_models, list_models.
  rewrite !filter_if, !filter_filter, fold_filter_capability.
  apply filter_ext. intros m. unfold eligible. now rewrite !andb_assoc.
Qed.

Lemma provider_in_In p ps : provider_in p ps = true <-> In p ps.
Proof.
  unfold provider_in. rewrite existsb_exists. split.
  - intros (q & Hq & E). unfold ModelProvider_eqb in E.
    apply String.eqb_eq in E.
    assert (p = q) as -> by (destruct p, q; simpl in E; congruence).
    assumption.
  - intros H. exists p. split; [assumption|].
    unfold ModelProvider_eqb. apply String.eqb_refl.
Qed.

(** X1.  The candidates [_filter_models] returns are exactly the
    registered models that are available, belong to the preferred
    providers when that list is given and not empty, do not belong to the
    excluded providers, have at least [min_context_length] tokens of
    context and cost at most [max_cost_per_1k_tokens] on average when
    those thresholds are given and not 0, and have every required
    capability the router knows; they come in registration order. *)
Theorem filter_models_candidates :
  forall (self : ModelRouter.t) context,
    (forall m,
        In m (_filter_models self context) <->
        In m (dict_values (_models (registry self)))
        /\ is_available m = true
        /\ (forall ps, preferred_providers context = Some ps -> ps <> [] ->
                       In (provider m) ps)
        /\ (forall ps, excluded_providers context = Some ps ->
                       ~ In (provider m) ps)
        /\ (forall n, min_context_length context = Some n -> n <> 0 ->
                      n <= max_context_length (capabilities m))
        /\ (forall c, max_cost_per_1k_tokens context = Some c -> ~ (c == 0)%Q ->
                      (avg_cost m <= c)%Q)
        /\ (forall capability, In capability (required_capabilities context) ->
                               has_capability capability m = true))
    /\ _filter_models self context
       = filter (eligible context) (dict_values (_models (registry self))).
Proof.
  intros self context. split; [|apply filter_models_eligible].
  intros m. rewrite filter_models_eligible, filter_In. unfold eligible.
  rewrite !andb_true_iff, forallb_forall.
  assert (Hp : negb (truthy_list (preferred_providers context))
               || provider_in (provider m) (unwrap (preferred_providers context))
               = true
               <-> forall ps, preferred_providers context = Some ps -> ps <> [] ->
                              In (provider m) ps).
  { destruct (preferred_providers context) as [[|p ps]|];
      cbn [truthy_list negb orb unwrap].
    - split; [intros _ ps [= <-] H; congruence | reflexivity].
    - rewrite provider_in_In.
      split; [intros H ps' [= <-] _; exact H | intros H; apply H; congruence].
    - split; [intros _ ps [=] | reflexivity]. }
  assert (He : negb (truthy_list (excluded_providers context))
               || negb (provider_in (provider m)
                          (unwrap (excluded_providers context))) = true
               <-> forall ps, excluded_providers context = Some ps ->
                              ~ In (provider m) ps).
  { destruct (excluded_providers context) as [[|p ps]|];
      cbn [truthy_list negb orb unwrap].
    - split; [intros _ ps [= <-] [] | reflexivity].
    - rewrite negb_true_iff, <- not_true_iff_false, provider_in_In.
      split; [intros H ps' [= <-]; exact H | intros H; now apply H].
    - split; [intros _ ps [=] | reflexivity]. }
  assert (Hmin : negb (truthy_int (min_context_length context))
                 || match min_context_length context with
                    | Some n => n <=? max_context_length (capabilities m)
                    | None => true
                    end = true
                 <-> forall n, min_context_length context = Some n -> n <> 0 ->
                               n <= max_context_length (capabilities m)).
  { destruct (min_context_length context) as [n|]; simpl.
    - destruct (Z.eqb_spec n 0) as [->|Hn]; simpl.
      + split; [intros _ n [= <-] H; congruence | reflexivity].
      + rewrite Z.leb_le.
        split; [intros H n' [= <-] _; exact H | intros H; now apply H].
    - split; [intros _ n [=] | reflexivity]. }
  assert (Hmax : negb (truthy_float (max_cost_per_1k_tokens context))
                 || match max_cost_per_1k_tokens context with
                    | Some c => Qle_bool (avg_cost m) c
                    | None => true
                    end = true
                 <-> forall c, max_cost_per_1k_tokens context = Some c ->
                               ~ (c == 0)%Q -> (avg_cost m <= c)%Q).
  { destruct (max_cost_per_1k_tokens context) as [c|]; simpl.
    - destruct (Qeq_bool c 0) eqn:Ec; simpl.
      + apply Qeq_bool_iff in Ec.
        split; [intros _ c' [= <-] H; contradiction | reflexivity].
      + assert (Hc : ~ (c == 0)%Q).
        { intros Hc. apply Qeq_bool_iff in Hc. congruence. }
        rewrite Qle_bool_iff.
        split; [intros H c' [= <-] _; exact H | intros H; now apply H].
    - split; [intros _ c [=] | reflexivity]. }
  rewrite Hp, He, Hmin, Hmax. tauto.
Qed.

Lemma sort_key_int_first {A} (key : A -> Z) (l : list A) :
  match head (sort_key_int key l) with
  | None => l = []
  | Some m =>
      exists before after,
        l = (before ++ m :: after)%list
        /\ (forall x, In x before -> key m < key x)
        /\ (forall x, In x after -> key m <= key x)
  end.
Proof.
  unfold sort_key_int.
  destruct (sort_by (fun a b => key a <=? key b) l) as [|m rest] eqn:E; simpl.
  - destruct l as [|x xs]; [reflexivity|].
    exfalso. revert E. apply sort_by_nonempty. discriminate.
  - apply sort_by_head_first in E.
    + destruct E as (before & after & Hl & Hb & Ha).
      exists before, after. split; [assumption|]. split.
      * intros x Hx. specialize (Hb x Hx). apply Z.leb_gt in Hb. exact Hb.
      * intros x Hx. apply Z.leb_le. auto.
    + intros a b. rewrite !Z.leb_le. lia.
    + intros a b c. rewrite !Z.leb_le. lia.
Qed.

Lemma cost_sum_lt_avg (a b : ModelInfo) :
  (cost_sum a < cost_sum b)%Q -> (avg_cost a < avg_cost b)%Q.
Proof.
  unfold avg_cost, cost_sum, Qdiv. intros H.
  apply Qmult_lt_compat_r; [reflexivity | exact H].
Qed.

Lemma cost_sum_le_avg (a b : ModelInfo) :
  (cost_sum a <= cost_sum b)%Q -> (avg_cost a <= avg_cost b)%Q.
Proof.
  unfold avg_cost, cost_sum, Qdiv. intros H.
  apply Qmult_le_compat_r; [exact H | discriminate].
Qed.

(** X2.  The cost-optimized strategy returns no model exactly when there
    is no candidate; otherwise it returns a candidate of least average
    cost, and of several such the one registered first: every candidate
    before it costs strictly more, every candidate after it at least as
    much. *)
Theorem cost_optimized_selects_cheapest :
  forall (self : ModelRouter.t) context,
    match _select_cost_optimized self context with
    | None => _filter_models self context = []
    | Some m =>
        exists before after,
          _filter_models self context = (before ++ m :: after)%list
          /\ (forall x, In x before -> (avg_cost m < avg_cost x)%Q)
          /\ (forall x, In x after -> (avg_cost m <= avg_cost x)%Q)
    end.
Proof.
  intros self context. unfold _select_cost_optimized.
  pose proof (sort_key_float_first cost_sum (_filter_models self context)) as H.
  destruct (_filter_models self context) as [|c cs] eqn:E; [reflexivity|].
  destruct (head (sort_key_float cost_sum (c :: cs))) as [m|]; [|discriminate].
  destruct H as (before & after & Hl & Hb & Ha).
  exists before, after. split; [assumption|]. split; intros x Hx.
  - apply cost_sum_lt_avg. auto.
  - apply cost_sum_le_avg. auto.
Qed.

(** X3.  The quality-optimized strategy returns no model exactly when
    there is no candidate; otherwise it returns a candidate of least
    quality rank (0 is the best tier), and of several such the one
    registered first. *)
Theorem quality_optimized_selects_best_tier :
  forall (self : ModelRouter.t) context,
    match _select_quality_optimized self context with
    | None => _filter_models self context = []
    | Some m =>
        exists before after,
          _filter_models self context = (before ++ m :: after)%list
          /\ (forall x, In x before -> get_quality_score m < get_quality_score x)
          /\ (forall x, In x after -> get_quality_score m <= get_quality_score x)
    end.
Proof.
  intros self context. unfold _select_quality_optimized.
  pose proof (sort_key_int_first get_quality_score (_filter_models self context))
    as H.
  destruct (_filter_models self context) as [|c cs] eqn:E; [reflexivity|].
  destruct (head (sort_key_int get_quality_score (c :: cs))) as [m|];
    [exact H | discriminate].
Qed.

Lemma item_mod_in {A} (l : list A) (i : Z) :
  l <> [] ->
  exists x, item l (i mod Z.of_nat (List.length l)) = Some x /\ In x l.
Proof.
  intros Hl. unfold item.
  assert (Hlen : (0 < List.length l)%nat) by (destruct l; simpl; [congruence | lia]).
  destruct (nth_error l (Z.to_nat (i mod Z.of_nat (List.length l)))) as [x|] eqn:E.
  - exists x. split; [reflexivity|]. eapply nth_error_In; eassumption.
  - apply nth_error_None in E.
    pose proof (Z.mod_pos_bound i (Z.of_nat (List.length l))). lia.
Qed.

(** X4.  For the strategies cost-optimized, quality-optimized, balanced
    and round-robin, [_select_model] does not raise, returns [None]
    exactly when the context leaves no candidate, returns one of the
    candidates otherwise, and leaves the registry as it was. *)
Theorem selection_is_a_candidate :
  forall (self : ModelRouter.t) context,
    strategy context <> MANUAL ->
    strategy context <> PERFORMANCE_OPTIMIZED ->
    exists selected,
      fst (_select_model self context) = Ok selected
      /\ (selected = None <-> _filter_models self context = [])
      /\ (forall m, selected = Some m -> In m (_filter_models self context))
      /\ registry (snd (_select_model self context)) = registry self.
Proof.
  intros self context Hm Hp. unfold _select_model.
  destruct (strategy context) eqn:Es; try congruence; cbn [fst snd].
  - pose proof (cost_optimized_selects_cheapest self context) as H.
    destruct (_select_cost_optimized self context) as [m|]; eexists;
      (split; [reflexivity|]).
    + destruct H as (before & after & -> & _). repeat split.
      * discriminate.
      * intros E. now destruct before.
      * intros m' [= <-]. apply in_elt.
    + rewrite H. repeat split; auto. intros m [=].
  - pose proof (quality_optimized_selects_best_tier self context) as H.
    destruct (_select_quality_optimized self context) as [m|]; eexists;
      (split; [reflexivity|]).
    + destruct H as (before & after & -> & _). repeat split.
      * discriminate.
      * intros E. now destruct before.
      * intros m' [= <-]. apply in_elt.
    + rewrite H. repeat split; auto. intros m [=].
  - unfold _select_balanced.
    pose proof (sort_key_float_first balance_score (_filter_models self context))
      as H.
    destruct (_filter_models self context) as [|c cs] eqn:E.
    + eexists. split; [reflexivity|]. repeat split; auto. intros m [=].
    + destruct (head (sort_key_float balance_score (c :: cs))) as [m|];
        [|discriminate].
      eexists. split; [reflexivity|].
      destruct H as (before & after & Hl & _). repeat split.
      * discriminate.
      * discriminate.
      * intros m' [= <-]. rewrite Hl. apply in_elt.
  - unfold _select_round_robin.
    destruct (_filter_models self context) as [|c cs] eqn:E; cbn [fst snd].
    + eexists. split; [reflexivity|]. repeat split; auto. intros m [=].
    + destruct (@item_mod_in _ (c :: cs) (_round_robin_index self))
        as (x & Hx & Hin); [discriminate|].
      rewrite Hx. eexists. split; [reflexivity|]. repeat split.
      * discriminate.
      * discriminate.
      * intros m' [= <-]. exact Hin.
Qed.

(** X5.  Round-robin selection over any non-empty candidate list and from
    any index [k]: the call number [i] (from 0) returns the candidate at
    position [(k + i) mod len] and after [n] calls the index is [k + n].
    With no candidate every call returns [None] and the index does not
    move. *)
Theorem round_robin_cycles :
  forall reg cache context candidates (k : nat),
    strategy context = ROUND_ROBIN ->
    _filter_models (ModelRouter.init reg) context = candidates ->
    let start := {| registry := reg; _round_robin_index := Z.of_nat k;
                    _provider_cache := cache |} in
    (candidates <> [] ->
     forall n,
       select_many n start context
       = (map (fun i => Ok (nth_error candidates
                              ((k + i) mod List.length candidates)%nat))
            (seq 0 n),
          {| registry := reg; _round_robin_index := Z.of_nat (k + n);
             _provider_cache := cache |}))
    /\ (candidates = [] ->
        forall n, select_many n start context = (repeat (Ok None) n, start)).
Proof.
  intros reg cache context candidates k Hs Hf start. subst start. split.
  - intros Hne n. revert k. induction n as [|n IH]; intros k.
    + simpl. now rewrite Nat.add_0_r.
    + cbn [select_many]. unfold _select_model. rewrite Hs.
      unfold _select_round_robin.
      rewrite (@filter_models_registry
                 {| registry := reg; _round_robin_index := Z.of_nat k;
                    _provider_cache := cache |}
                 (ModelRouter.init reg) context eq_refl), Hf.
      destruct candidates as [|c cs] eqn:Ec; [congruence|]. rewrite <- Ec in *.
      cbn [registry _round_robin_index _provider_cache].
      replace (Z.of_nat k + 1) with (Z.of_nat (S k)) by lia.
      rewrite IH. cbn [seq map]. f_equal.
      * f_equal.
        -- unfold item.
           now rewrite <- Nat2Z.inj_mod, Nat2Z.id, Nat.add_0_r.
        -- rewrite <- seq_shift, map_map. apply map_ext. intros i.
           now rewrite Nat.add_succ_comm.
      * now rewrite Nat.add_succ_comm.
  - intros -> n. induction n as [|n IH]; [reflexivity|].
    cbn [select_many]. unfold _select_model. rewrite Hs.
    unfold _select_round_robin.
    rewrite (@filter_models_registry
               {| registry := reg; _round_robin_index := Z.of_nat k;
                  _provider_cache := cache |}
               (ModelRouter.init reg) context eq_refl), Hf.
    now rewrite IH.
Qed.

(** ** registry *)

Lemma dict_set_absent {V} (d : list (string * V)) k v :
  dict_get d k = None -> dict_set d k v = (d ++ [(k, v)])%list.
Proof.
  induction d as [|[k' v'] d IH]; simpl; intros H; [reflexivity|].
  destruct (String.eqb k' k); [discriminate|]. now rewrite IH.
Qed.

(** X6.  Registering an id that is not in the registry adds one entry
    after the existing ones: [get_model] finds it, [list_models] lists it
    last (it is available), and every other id keeps its entry. *)
Theorem register_new_model_appends :
  forall (self : ModelRegistry.t) p name display caps tgs meta,
    get_model self (model_id_of p name) = None ->
    let self' := register_model self p name display caps tgs meta in
    let fresh :=
      new_ModelInfo p name display caps
        (match tgs with Some s => s | None => [] end)
        (match meta with Some d => d | None => [] end) in
    get_model self' (model_id_of p name) = Some fresh
    /\ list_models self' false = (list_models self false ++ [fresh])%list
    /\ list_models self' true = (list_models self true ++ [fresh])%list
    /\ (forall id, id <> model_id_of p name ->
                   get_model self' id = get_model self id).
Proof.
  intros self p name display caps tgs meta Hnew self' fresh.
  unfold self', register_model, get_model, list_models in *. simpl.
  rewrite (@dict_set_absent _ _ _ _ Hnew).
  unfold dict_values. rewrite map_app, filter_app. simpl.
  repeat split.
  - rewrite <- (@dict_set_absent _ _ _ _ Hnew). apply dict_get_set_same.
  - intros id Hne. rewrite <- (@dict_set_absent _ _ _ _ Hnew).
    now apply dict_get_set_other.
Qed.

(** list_models_by *)
Lemma tags_meet_iff a b :
  tags_meet a b = true <-> exists tag, In tag a /\ In tag b.
Proof.
  unfold tags_meet. rewrite existsb_exists. split.
  - intros (x & Hx & H). apply existsb_exists in H.
    destruct H as (y & Hy & E). apply String.eqb_eq in E. subst y. eauto.
  - intros (x & Ha & Hb). exists x. split; [assumption|].
    apply existsb_exists. exists x. split; [assumption | apply String.eqb_refl].
Qed.

Lemma ModelProvider_eqb_eq p q : ModelProvider_eqb p q = true <-> p = q.
Proof.
  unfold ModelProvider_eqb. rewrite String.eqb_eq. split.
  - destruct p, q; simpl; congruence.
  - now intros ->.
Qed.

(** X7.  [list_models(provider, tags, available_only)] returns exactly
    the registered models of that provider (when one is given) that
    share a tag with [tags] (when that set is given and not empty) and
    are available (when [available_only]); an empty tag set filters
    nothing, like no tag set. *)
Theorem list_models_by_filters :
  forall (self : ModelRegistry.t) provider_filter tags_filter available_only,
    (forall m,
        In m (list_models_by self provider_filter tags_filter available_only)
        <->
        In m (dict_values (_models self))
        /\ (forall p, provider_filter = Some p -> provider m = p)
        /\ (forall wanted, tags_filter = Some wanted -> wanted <> [] ->
                           exists tag, In tag (tags m) /\ In tag wanted)
        /\ (available_only = true -> is_available m = true))
    /\ list_models_by self None None available_only
       = list_models self available_only
    /\ list_models_by self provider_filter (Some []) available_only
       = list_models_by self provider_filter None available_only.
Proof.
  intros self pf tf ao. split; [|split; reflexivity].
  intros m. unfold list_models_by.
  rewrite (filter_if ao), (filter_if (truthy_list tf)).
  rewrite !filter_In.
  assert (Hp : In m match pf with
                    | Some p => filter (fun m => ModelProvider_eqb (provider m) p)
                                  (dict_values (_models self))
                    | None => dict_values (_models self)
                    end
               <-> In m (dict_values (_models self))
                   /\ forall p, pf = Some p -> provider m = p).
  { destruct pf as [p|].
    - rewrite filter_In, ModelProvider_eqb_eq.
      split; [intros [H1 H2]; split; [assumption | now intros p' [= <-]]
             | intros [H1 H2]; split; [assumption | now apply H2]].
    - split; [intros H; split; [assumption | intros p [=]] | tauto]. }
  rewrite Hp.
  assert (Ht : negb (truthy_list tf)
               || tags_meet (tags m) match tf with Some l => l | None => [] end
               = true
               <-> forall wanted, tf = Some wanted -> wanted <> [] ->
                                  exists tag, In tag (tags m) /\ In tag wanted).
  { destruct tf as [[|t ts]|]; cbn [truthy_list negb orb].
    - split; [intros _ w [= <-] H; congruence | reflexivity].
    - rewrite tags_meet_iff.
      split; [intros H w [= <-] _; exact H | intros H; apply H; congruence].
    - split; [intros _ w [=] | reflexivity]. }
  rewrite Ht.
  destruct ao; cbn [negb orb]; intuition congruence.
Qed.

Section SortedFixpoint.
Variable A : Type.
Variable le : A -> A -> bool.

(** Sorting a sorted list changes nothing. *)
Lemma sort_by_sorted_id l :
  StronglySorted (fun a b => le a b = true) l -> sort_by le l = l.
Proof.
  induction 1 as [|x xs Hs IH Hall]; simpl; [reflexivity|].
  rewrite IH. destruct xs as [|y ys]; [reflexivity|]. simpl.
  inversion Hall as [|? ? Hxy _]; subst. now rewrite Hxy.
Qed.
End SortedFixpoint.

Lemma find_models_sorted_again (self : ModelRegistry.t) capability min max :
  sort_key_float cost_sum (find_models_by_capability self capability min max)
  = find_models_by_capability self capability min max.
Proof.
  unfold find_models_by_capability, sort_key_float.
  apply sort_by_sorted_id. apply sort_by_sorted.
  - intros a b. apply Qle_bool_total.
  - intros a b c. apply Qle_bool_trans.
Qed.

(** X9.  When [get_cheapest_model] is given required capabilities, its
    result is the cheapest available model with the last capability of
    the list: the context-length bound and the capabilities listed before
    the last one have no effect. *)
Theorem cheapest_model_with_capabilities_uses_last :
  forall (self : ModelRegistry.t) min earlier capability,
    get_cheapest_model self min (Some (earlier ++ [capability])%list)
    = head (find_models_by_capability self capability None None).
Proof.
  intros self min earlier capability. unfold get_cheapest_model.
  assert (Ht : truthy_list (Some (earlier ++ [capability])%list) = true)
    by (destruct earlier; reflexivity).
  rewrite Ht, fold_left_app. cbn [fold_left].
  rewrite find_models_sorted_again.
  now destruct (find_models_by_capability self capability None None).
Qed.

(** X8.  Without required capabilities, [get_cheapest_model] returns
    [None] exactly when no registered model is available with at least
    [min_context_length] tokens of context (a bound of 0 or [None] admits
    every model); otherwise it returns such a model of least average
    cost. *)
Theorem cheapest_model_without_capabilities :
  forall (self : ModelRegistry.t) min caps,
    truthy_list caps = false ->
    let meets m :=
      In m (dict_values (_models self))
      /\ is_available m = true
      /\ (forall n, min = Some n -> n <> 0 ->
                    n <= max_context_length (capabilities m)) in
    match get_cheapest_model self min caps with
    | None => forall m, ~ meets m
    | Some m => meets m /\ forall m', meets m' -> (avg_cost m <= avg_cost m')%Q
    end.
Proof.
  intros self min caps Hc meets. unfold get_cheapest_model. rewrite Hc.
  rewrite filter_if, filter_filter.
  set (keep := fun x : ModelInfo =>
                 is_available x
                 && (negb (truthy_int min)
                     || (match min with Some n => n | None => 0 end
                         <=? max_context_length (capabilities x)))).
  assert (Hmeets : forall m, In m (filter keep (dict_values (_models self)))
                             <-> meets m).
  { intros m. rewrite filter_In. unfold keep, meets.
    rewrite andb_true_iff.
    assert (negb (truthy_int min)
            || (match min with Some n => n | None => 0 end
                <=? max_context_length (capabilities m)) = true
            <-> forall n, min = Some n -> n <> 0 ->
                          n <= max_context_length (capabilities m)) as ->.
    { destruct min as [n|]; simpl.
      - destruct (Z.eqb_spec n 0) as [->|Hn]; simpl.
        + split; [intros _ n [= <-] H; congruence | reflexivity].
        + rewrite Z.leb_le.
          split; [intros H n' [= <-] _; exact H | intros H; now apply H].
      - split; [intros _ n [=] | reflexivity]. }
    tauto. }
  pose proof (sort_key_float_first cost_sum
                (filter keep (dict_values (_models self)))) as H.
  destruct (filter keep (dict_values (_models self))) as [|c cs] eqn:E.
  - intros m Hm. apply Hmeets in Hm. contradiction.
  - unfold head in H.
    destruct (sort_key_float cost_sum (c :: cs)) as [|m rest]; [discriminate|].
    destruct H as (before & after & Hl & Hb & Ha). split.
    + apply Hmeets. rewrite Hl. apply in_elt.
    + intros m' Hm'. apply Hmeets in Hm'. rewrite Hl in Hm'.
      apply cost_sum_le_avg. apply in_app_or in Hm'.
      destruct Hm' as [Hm'|[<-|Hm']].
      * apply Qlt_le_weak. auto.
      * apply Qle_refl.
      * auto.
Qed.

(** get_fastest_model *)
Lemma matches_has_capability capability (m : ModelInfo) :
  matches capability None None m = true ->
  is_available m = true /\ has_capability capability m = true.
Proof.
  unfold matches, has_capability. cbn [truthy_int truthy_float andb].
  destruct (is_available m); [|discriminate]. cbn [negb].
  destruct (String.eqb capability "function_calling") eqn:E1.
  - apply String.eqb_eq in E1. subst capability.
    destruct (supports_function_calling (capabilities m)); [auto | discriminate].
  - cbn [andb]. destruct (String.eqb capability "vision") eqn:E2.
    + apply String.eqb_eq in E2. subst capability.
      destruct (supports_vision (capabilities m)); [auto | discriminate].
    + cbn [andb]. destruct (String.eqb capability "streaming") eqn:E3.
      * apply String.eqb_eq in E3. subst capability.
        destruct (supports_streaming (capabilities m)); [auto | discriminate].
      * cbn [andb]. destruct (String.eqb capability "json_mode") eqn:E4.
        -- destruct (supports_json_mode (capabilities m)); [auto | discriminate].
        -- auto.
Qed.

Lemma ModelInfo_eqb_has_capability capability (a b : ModelInfo) :
  ModelInfo_eqb a b = true ->
  has_capability capability a = has_capability capability b.
Proof.
  unfold ModelInfo_eqb, ModelCapabilities_eqb. rewrite !andb_true_iff.
  intros H. decompose [and] H. clear H.
  repeat match goal with
         | H : Bool.eqb _ _ = true |- _ => apply Bool.eqb_prop in H
         end.
  unfold has_capability.
  destruct (String.eqb capability "function_calling"); [assumption|].
  destruct (String.eqb capability "vision"); [assumption|].
  destruct (String.eqb capability "streaming"); [assumption|].
  destruct (String.eqb capability "json_mode"); [assumption | reflexivity].
Qed.

Lemma In_fold_model_in (self : ModelRegistry.t) caps : forall l m,
  In m (fold_left
          (fun models capability =>
             filter (fun m => model_in m
                                (find_models_by_capability self capability
                                   None None)) models) caps l) ->
  In m l /\ forall c, In c caps -> has_capability c m = true.
Proof.
  induction caps as [|c caps IH]; intros l m H; simpl in H.
  - split; [assumption | intros c []].
  - apply IH in H. destruct H as [H Hcaps]. apply filter_In in H.
    destruct H as [Hl Hin]. split; [assumption|].
    intros c' [<-|Hc']; [|auto].
    unfold model_in in Hin. apply existsb_exists in Hin.
    destruct Hin as (m' & Hm' & E).
    rewrite (@ModelInfo_eqb_has_capability c _ _ E).
    unfold find_models_by_capability, sort_key_float in Hm'.
    apply (Permutation_in _ (@sort_by_perm _ _ _)) in Hm'.
    apply filter_In in Hm'. destruct Hm' as [_ Hm'].
    now apply matches_has_capability in Hm'.
Qed.

(** X10.  A model returned by [get_fastest_model] is registered,
    available and has every required capability. *)
Theorem fastest_model_is_available_and_capable :
  forall (self : ModelRegistry.t) caps m,
    get_fastest_model self caps = Some m ->
    In m (dict_values (_models self))
    /\ is_available m = true
    /\ (forall required c, caps = Some required -> In c required ->
                           has_capability c m = true).
Proof.
  intros self caps m H. unfold get_fastest_model in H.
  match type of H with
  | match sort_key_int _ ?l with _ => _ end = _ => set (models := l) in H
  end.
  assert (Hin : In m models).
  { destruct (sort_key_int get_speed_score models) as [|x rest] eqn:E;
      [discriminate|]. injection H as ->.
    unfold sort_key_int in E.
    apply (Permutation_in _ (@sort_by_perm _
             (fun a b => get_speed_score a <=? get_speed_score b) models)).
    rewrite E. now left. }
  clear H. unfold models in Hin. clear models.
  destruct (truthy_list caps) eqn:Et.
  - apply In_fold_model_in in Hin. destruct Hin as [Hin Hcaps].
    apply filter_In in Hin. destruct Hin as [Hv Ha].
    repeat split; try assumption.
    intros required c -> Hc. auto.
  - apply filter_In in Hin. destruct Hin as [Hv Ha].
    repeat split; try assumption.
    intros required c -> Hc. destruct required; [contradiction | discriminate].
Qed.

(** X11.  One health check of a registered model whose provider has an
    instance bound.  If the probe returns, the model's availability is
    what the probe returned, the time of the check is recorded and the
    failure count is 0 after a success and one more after a failure (the
    threshold of 3 changes nothing).  If the probe raises, the check
    returns [False], the failure count is one more, and the availability
    and the recorded time stay as they were.  Provider, name and
    capabilities are never touched. *)
Theorem health_check_transition :
  forall (self : ModelRegistry.t) model_id model instance outcome now,
    get_model self model_id = Some model ->
    dict_get (_providers self) (value (provider model)) = Some instance ->
    exists model',
      get_model (snd (health_check self model_id outcome now)) model_id
      = Some model'
      /\ match outcome with
         | Returns is_healthy =>
             fst (health_check self model_id outcome now) = is_healthy
             /\ is_available model' = is_healthy
             /\ last_health_check model' = Some now
             /\ health_check_failures model'
                = (if is_healthy then 0 else health_check_failures model + 1)
         | Raises _ =>
             fst (health_check self model_id outcome now) = false
             /\ is_available model' = is_available model
             /\ last_health_check model' = last_health_check model
             /\ health_check_failures model' = health_check_failures model + 1
         end
      /\ provider model' = provider model
      /\ model_name model' = model_name model
      /\ capabilities model' = capabilities model.
Proof.
  intros self model_id model instance outcome now Hget Hprov.
  unfold get_model in *. unfold health_check. rewrite Hget, Hprov.
  destruct outcome as [[|]|e]; cbn [fst snd with_models _models];
    rewrite dict_get_set_same; eexists; (split; [reflexivity|]).
  - repeat split.
  - simpl. destruct (3 <=? health_check_failures model + 1); repeat split.
  - repeat split.
Qed.

(** X12.  A health check that cannot probe changes nothing: for an id
    that is not registered it returns [False], and for a model whose
    provider has no instance bound it returns [True], whatever the
    model's recorded state. *)
Theorem health_check_without_probe :
  forall (self : ModelRegistry.t) model_id outcome now,
    (get_model self model_id = None ->
     health_check self model_id outcome now = (false, self))
    /\ (forall model,
           get_model self model_id = Some model ->
           dict_get (_providers self) (value (provider model)) = None ->
           health_check self model_id outcome now = (true, self)).
Proof.
  intros self model_id outcome now. unfold get_model, health_check. split.
  - now intros ->.
  - intros model -> Hp. now rewrite Hp.
Qed.

Lemma dict_set_keys_or {V} (d : list (string * V)) k v :
  dict_get d k <> None -> dict_keys (dict_set d k v) = dict_keys d.
Proof.
  intros H. destruct (dict_get d k) as [old|] eqn:E; [|congruence].
  eapply dict_set_keys_present; eassumption.
Qed.

(** X13.  A health check adds and removes no entry, keeps the order of
    the registry and the bound provider instances, and leaves the entry
    of every other model id as it was. *)
Theorem health_check_touches_one_model :
  forall (self : ModelRegistry.t) model_id outcome now,
    let self' := snd (health_check self model_id outcome now) in
    dict_keys (_models self') = dict_keys (_models self)
    /\ _providers self' = _providers self
    /\ (forall other, other <> model_id ->
                      get_model self' other = get_model self other).
Proof.
  intros self model_id outcome now self'. unfold self', health_check, get_model.
  destruct (dict_get (_models self) model_id) as [model|] eqn:Hm;
    [|repeat split].
  destruct (dict_get (_providers self) (value (provider model)));
    [|repeat split].
  destruct outcome as [healthy|e]; cbn [snd with_models _models _providers];
    (split; [eapply dict_set_keys_present; eassumption|]);
    (split; [reflexivity|]);
    intros other Hne; now apply dict_get_set_other.
Qed.
Lemma selection_is_a_candidate_witness :
  exists selected,
    fst (_select_model (ModelRouter.init registry_three)
           (default_context COST_OPTIMIZED)) = Ok selected
    /\ (selected = None <->
        _filter_models (ModelRouter.init registry_three)
          (default_context COST_OPTIMIZED) = [])
    /\ (forall m, selected = Some m ->
                  In m (_filter_models (ModelRouter.init registry_three)
                          (default_context COST_OPTIMIZED)))
    /\ registry (snd (_select_model (ModelRouter.init registry_three)
                        (default_context COST_OPTIMIZED)))
       = registry (ModelRouter.init registry_three).
Proof.
  apply (@selection_is_a_candidate (ModelRouter.init registry_three)
           (default_context COST_OPTIMIZED)); discriminate.
Defined.

Lemma round_robin_cycles_witness :
  select_many 5
    {| registry := registry_three; _round_robin_index := Z.of_nat 1;
       _provider_cache := [] |} (default_context ROUND_ROBIN)
  = ([Ok (Some sonnet); Ok (Some haiku); Ok (Some gpt4); Ok (Some sonnet);
      Ok (Some haiku)],
     {| registry := registry_three; _round_robin_index := Z.of_nat 6;
        _provider_cache := [] |}).
Proof.
  refine (proj1 (@round_robin_cycles registry_three [] (default_context ROUND_ROBIN)
                   [gpt4; sonnet; haiku] 1%nat eq_refl eq_refl) _ 5%nat).
  discriminate.
Defined.

Lemma register_new_model_appends_witness :
  list_models
    (register_model registry_gpt4 ANTHROPIC "claude-3-haiku" "Claude 3 Haiku"
       (caps 0.001 0.001) None None) true
  = [gpt4; haiku].
Proof.
  exact (proj1 (proj2 (proj2
           (@register_new_model_appends registry_gpt4 ANTHROPIC
              "claude-3-haiku" "Claude 3 Haiku" (caps 0.001 0.001) None None
              eq_refl)))).
Defined.

Lemma cheapest_model_without_capabilities_witness :
  match get_cheapest_model registry_three (Some 4096) None with
  | None => False
  | Some m =>
      is_available m = true
      /\ (avg_cost m <= avg_cost gpt4)%Q
  end.
Proof.
  pose proof (@cheapest_model_without_capabilities registry_three (Some 4096)
                None eq_refl) as H.
  cbv zeta in H.
  destruct (get_cheapest_model registry_three (Some 4096) None) as [m|].
  - destruct H as [(_ & Ha & _) Hleast]. split; [exact Ha|].
    apply Hleast. split; [simpl; tauto|]. split; [reflexivity|].
    intros n [= <-] _. simpl. lia.
  - apply (H gpt4). split; [simpl; tauto|]. split; [reflexivity|].
    intros n [= <-] _. simpl. lia.
Defined.

Lemma fastest_model_is_available_and_capable_witness :
  In haiku (dict_values (_models registry_three))
  /\ is_available haiku = true
  /\ (forall required c, Some ["function_calling"] = Some required ->
                         In c required -> has_capability c haiku = true).
Proof.
  exact (@fastest_model_is_available_and_capable registry_three
           (Some ["function_calling"]) haiku eq_refl).
Defined.

Lemma health_check_transition_witness :
  exists model',
    get_model (snd (health_check registry_gpt4_bound gpt4_id
                      (Raises connect_error) 7)) gpt4_id = Some model'
    /\ (fst (health_check registry_gpt4_bound gpt4_id
               (Raises connect_error) 7) = false
        /\ is_available model' = is_available gpt4
        /\ last_health_check model' = last_health_check gpt4
        /\ health_check_failures model' = health_check_failures gpt4 + 1)
    /\ provider model' = provider gpt4
    /\ model_name model' = model_name gpt4
    /\ capabilities model' = capabilities gpt4.
Proof.
  exact (@health_check_transition registry_gpt4_bound gpt4_id gpt4
           {| provider_of := OPENAI; provider_model_name := "gpt-4" |}
           (Raises connect_error) 7 eq_refl eq_refl).
Defined.

(* ================================================================== *)
(** * Further properties of the n8n adapter *)
(* ================================================================== *)

Lemma all_some_as_model cls l l' :
  all_some (map (as_model cls) l) = Some l' -> l' = l /\ Forall is_model l.
Proof.
  revert l'. induction l as [|v l IH]; simpl; intros l' H.
  - injection H as <-. split; [reflexivity | constructor].
  - destruct (as_model cls v) as [v'|] eqn:Ev; [|discriminate].
    destruct (all_some (map (as_model cls) l)) as [vs|]; [|discriminate].
    injection H as <-. destruct (IH vs eq_refl) as [-> Hall].
    unfold as_model in Ev. destruct v; try discriminate.
    destruct (String.eqb cls0 cls); [|discriminate]. injection Ev as <-.
    split; [reflexivity|]. constructor; [|assumption]. eexists _, _; reflexivity.
Qed.

(** A response that [parse_response] builds. *)
Lemma parse_response_ok self data start_time started_at now response :
  parse_response self data start_time started_at now = Ok response ->
  exists answer citations tools metadata,
    response = PObj "AgentResponse"
             [("answer", PStr answer);
              ("citations", PList citations);
              ("thoughts", PList []);
              ("agent_id", PStr (agent_id self));
              ("agent_type", PStr N8N);
              ("status", PStr COMPLETED);
              ("execution_time", PFloat (total_seconds (now - start_time)));
              ("tokens_used", PNone);
              ("visualization_data", PNone);
              ("tools_used", PList tools);
              ("metadata", PDict metadata);
              ("error", PNone);
              ("started_at", PDatetime started_at);
              ("completed_at", PDatetime now)]
    /\ Forall is_model citations.
Proof.
  unfold parse_response. intros H.
  destruct (get data "answer" _) as [answer|] eqn:E1; [|discriminate].
  destruct (get data "citations" _) as [cdata|] eqn:E2; [|discriminate].
  destruct (get data "metadata" _) as [md|] eqn:E3; [|discriminate].
  cbn [bind] in H.
  destruct (iter cdata) as [items|]; [|discriminate].
  cbn [bind] in H.
  destruct (mapM convert_citation items) as [cits|]; [|discriminate].
  cbn [bind] in H.
  destruct (get md "tools_used" _) as [tools|]; [|discriminate].
  cbn [bind] in H.
  destruct (unpack md) as [mditems|]; [|discriminate].
  cbn [bind] in H.
  destruct (get data "execution_id" _) as [eid|]; [|discriminate].
  cbn [bind] in H.
  unfold AgentResponse, construct, AgentResponse_fields in H.
  cbn [validate_model Pydantic.name default pre_always type_
         required optional app dict_get String.eqb Ascii.eqb Bool.eqb] in H.
  destruct answer as [| | | |s| | | |]; try discriminate.
  cbn [as_str as_list] in H.
  destruct (all_some (map (as_model "Citation") cits)) as [cits'|] eqn:Ec;
    [|discriminate].
  apply all_some_as_model in Ec. destruct Ec as [-> Hall].
  cbn in H.
  destruct (as_list as_str tools) as [tv|] eqn:Et; [|discriminate].
  unfold as_list in Et. destruct tools; try discriminate.
  destruct (all_some (map as_str l)) as [tl|]; [|discriminate].
  cbn in Et, H. injection Et as <-. injection H as <-.
  eexists _, _, _, _. split; [reflexivity | assumption].
Qed.

(** X14.  [execute] returns a response for every adapter, query, context
    and behaviour of the endpoint: it carries the adapter's id and the
    type n8n, and either its status is [completed] with no error and a
    string answer, or the [try] block ended in an exception [e] and its
    status is [failed], its error [str(e)] and its answer the apology
    that embeds [str(e)]. *)
Theorem execute_completed_or_failed :
  forall self query context w,
    exists response,
      fst (execute self query context w) = Ok response
      /\ attr response "agent_id" = Ok (PStr (agent_id self))
      /\ attr response "agent_type" = Ok (PStr N8N)
      /\ ((exists answer,
              attr response "status" = Ok (PStr COMPLETED)
              /\ attr response "error" = Ok PNone
              /\ attr response "answer" = Ok (PStr answer))
          \/ (exists e,
                 fst (try_block self query context w) = Raise e
                 /\ attr response "status" = Ok (PStr FAILED)
                 /\ attr response "error" = Ok (PStr (exn_str e))
                 /\ attr response "answer" = Ok (PStr (apology e)))).
Proof.
  intros self query context w.
  destruct (fst (try_block self query context w)) as [response|e] eqn:Hb.
  - exists response.
    assert (Hex : fst (execute self query context w) = Ok response).
    { unfold execute.
      destruct (try_block self query context w) as [body w1].
      simpl in Hb. now subst body. }
    unfold try_block in Hb.
    destruct (_call_webhook_with_retry self (payload_of query context)
                (headers_of self) w) as [called w1].
    destruct called as [data|e]; [|discriminate]. cbn [fst bind] in Hb.
    apply parse_response_ok in Hb.
    destruct Hb as (answer & cits & tools & md & -> & _).
    split; [exact Hex|]. split; [reflexivity|]. split; [reflexivity|].
    left. exists answer. repeat split.
  - rewrite (execute_after_failure self query context w Hb). eexists.
    split; [reflexivity|]. split; [reflexivity|]. split; [reflexivity|].
    right. exists e. repeat split.
Qed.

Lemma dict_methods_of_models cs :
  Forall is_model cs -> mapM dict_method cs = Ok (map to_dict cs).
Proof.
  induction 1 as [|c cs (cls & attrs & ->) _ IH]; simpl; [reflexivity|].
  now rewrite IH.
Qed.

(** X15.  Whatever the endpoint does, the stream of [execute_streaming]
    is the status chunk, one text chunk for each non-blank piece of the
    answer of [execute] between the separators [". "], one citations
    chunk if that response has citations, and a completion chunk; no
    chunk of the stream is an error chunk. *)
Theorem execute_streaming_never_yields_error :
  forall self query context w,
    exists answer citations,
      (let w1 := snd (execute self query context w) in
       fst (execute_streaming self query context w)
       = (status_chunk (clock w)
            :: text_chunks answer (clock w1)
            ++ citation_chunks citations (clock w1)
            ++ [completion_chunk (clock w1)])%list)
      /\ (exists response,
             fst (execute self query context w) = Ok response
             /\ attr response "answer" = Ok (PStr answer)
             /\ attr response "citations" = Ok (PList citations))
      /\ Forall (fun c => chunk_type c <> "error")
           (fst (execute_streaming self query context w)).
Proof.
  intros self query context w.
  assert (H : exists answer citations response,
             fst (execute self query context w) = Ok response
             /\ attr response "answer" = Ok (PStr answer)
             /\ attr response "citations" = Ok (PList citations)
             /\ Forall is_model citations).
  { destruct (fst (try_block self query context w)) as [response|e] eqn:Hb.
    - assert (Hex : fst (execute self query context w) = Ok response).
      { unfold execute.
        destruct (try_block self query context w) as [body w1].
        simpl in Hb. now subst body. }
      unfold try_block in Hb.
      destruct (_call_webhook_with_retry self (payload_of query context)
                  (headers_of self) w) as [called w1].
      destruct called as [data|e]; [|discriminate]. cbn [fst bind] in Hb.
      apply parse_response_ok in Hb.
      destruct Hb as (answer & cits & tools & md & -> & Hall).
      exists answer, cits. eexists. split; [exact Hex|]. repeat split.
      exact Hall.
    - rewrite (execute_after_failure self query context w Hb).
      exists (apology e), []. eexists. split; [reflexivity|].
      repeat split. constructor. }
  destruct H as (answer & cits & response & Hex & Ha & Hc & Hall).
  exists answer, cits.
  assert (Hs : fst (execute_streaming self query context w)
               = (status_chunk (clock w)
                    :: text_chunks answer (clock (snd (execute self query context w)))
                    ++ citation_chunks cits (clock (snd (execute self query context w)))
                    ++ [completion_chunk (clock (snd (execute self query context w)))])%list).
  { unfold execute_streaming.
    destruct (execute self query context w) as [r w1]. cbn [fst snd] in *.
    subst r. unfold stream_body. rewrite Ha. cbn [bind split_method].
    rewrite Hc. destruct cits as [|c cs].
    - cbn [truthy fst]. now rewrite app_nil_r.
    - cbn [truthy bind iter]. rewrite (dict_methods_of_models Hall).
      cbn [fst]. now rewrite app_nil_r. }
  split; [exact Hs|]. split; [now exists response|].
  rewrite Hs. constructor; [discriminate|].
  apply Forall_app. split.
  - eapply Forall_impl; [|apply text_chunks_are_text].
    intros c Hc'. rewrite Hc'. discriminate.
  - apply Forall_app. split.
    + destruct cits; constructor; [discriminate | constructor].
    + constructor; [discriminate | constructor].
Qed.

Lemma post_world self p h w : snd (post self p h w) = posted h p w.
Proof.
  unfold post, posted.
  destruct (endpoint w (List.length (sent w))) as [e|r]; [reflexivity|].
  destruct (is_success (status_code r)); reflexivity.
Qed.

Lemma retry_loop_requests self p h len : forall a w last,
  Z.of_nat (a + len) = retry_count self ->
  exists m,
    (m <= len)%nat
    /\ (len <> 0%nat -> m <> 0%nat)
    /\ endpoint (snd (retry_loop self p h (map Z.of_nat (seq a len)) last w))
       = endpoint w
    /\ sent (snd (retry_loop self p h (map Z.of_nat (seq a len)) last w))
       = (sent w ++ repeat (h, p) m)%list
    /\ slept (snd (retry_loop self p h (map Z.of_nat (seq a len)) last w))
       = (slept w ++ map (fun j => 2 ^ Z.of_nat j) (seq a (m - 1)))%list.
Proof.
  induction len as [|len IH]; intros a w last Hn.
  - exists 0%nat. simpl. rewrite !app_nil_r. repeat split; auto.
  - cbn [seq map retry_loop].
    pose proof (post_world self p h w) as Hw.
    destruct (post self p h w) as [[data|e] w1]; cbn [snd] in Hw; subst w1.
    + exists 1%nat. cbn [snd]. simpl. rewrite app_nil_r.
      repeat split; auto; lia.
    + destruct (Z.ltb_spec (Z.of_nat a) (retry_count self - 1)) as [Hlt|Hge].
      * destruct (IH (S a) (sleep (2 ^ Z.of_nat a) (posted h p w)) (Some e))
          as (m & Hm & Hpos & He & Hs & Hsl); [lia|].
        assert (m <> 0%nat) by (apply Hpos; lia).
        exists (S m). rewrite He, Hs, Hsl. cbn [sleep posted endpoint sent slept].
        repeat split; try lia.
        -- now rewrite <- app_assoc.
        -- rewrite <- app_assoc. f_equal.
           replace (S m - 1)%nat with (S (m - 1)) by lia. reflexivity.
      * assert (len = 0%nat) as -> by lia.
        exists 1%nat. simpl. rewrite app_nil_r. repeat split; auto; lia.
Qed.

(** X16.  [execute] sends [m] requests, all with the same headers and
    payload, where [m] is at most [retry_count] and is 0 exactly when
    [retry_count <= 0]; it sleeps [m - 1] times between them, for 1, 2, 4,
    ... seconds, and never after its last request. *)
Theorem execute_request_bound :
  forall self query context w,
    exists m,
      (m <= Z.to_nat (retry_count self))%nat
      /\ (m = 0%nat <-> retry_count self <= 0)
      /\ sent (snd (execute self query context w))
         = (sent w ++ repeat (headers_of self, payload_of query context) m)%list
      /\ slept (snd (execute self query context w))
         = (slept w ++ backoff (m - 1))%list
      /\ endpoint (snd (execute self query context w)) = endpoint w.
Proof.
  intros self query context w.
  assert (Hsnd : snd (execute self query context w)
                 = snd (_call_webhook_with_retry self (payload_of query context)
                          (headers_of self) w)).
  { unfold execute, try_block.
    now destruct (_call_webhook_with_retry self (payload_of query context)
                    (headers_of self) w). }
  rewrite Hsnd. unfold _call_webhook_with_retry, range.
  destruct (Z.leb_spec (retry_count self) 0) as [Hle|Hgt].
  - exists 0%nat. replace (Z.to_nat (retry_count self)) with 0%nat by lia.
    simpl. rewrite !app_nil_r. repeat split; auto; lia.
  - destruct (@retry_loop_requests self (payload_of query context)
                (headers_of self) (Z.to_nat (retry_count self)) 0%nat w None)
      as (m & Hm & Hpos & He & Hs & Hsl); [lia|].
    exists m. repeat split; try assumption; try lia.
Qed.

(** X17.  An adapter whose [retry_count] is 0 or negative sends no
    request at all: [raise last_error] raises a [TypeError] because
    [last_error] is still [None], and [execute] returns a failed response
    with the text of that error. *)
Theorem execute_without_attempts :
  forall self query context w,
    retry_count self <= 0 ->
    execute self query context w
    = (Ok (failed_response self
             (Exn "TypeError" "exceptions must derive from BaseException")
             (clock w) (clock w) (clock w)), w).
Proof.
  intros self query context w Hle.
  unfold execute, try_block, _call_webhook_with_retry, range.
  replace (Z.to_nat (retry_count self)) with 0%nat by lia. reflexivity.
Qed.

Lemma execute_without_attempts_witness :
  exists response,
    execute (adapter 0) "hello" context (fails_then_ok 0 answer_ok)
    = (Ok response, fails_then_ok 0 answer_ok)
    /\ attr response "status" = Ok (PStr FAILED)
    /\ attr response "error"
       = Ok (PStr "exceptions must derive from BaseException").
Proof.
  eexists. split.
  - apply (@execute_without_attempts (adapter 0) "hello" context
             (fails_then_ok 0 answer_ok)). simpl. lia.
  - split; reflexivity.
Defined.

(** X18.  The health check of the n8n adapter reports healthy exactly
    when the GET is answered with status 200 or 405, or the POST is tried
    and answered with status 200 (another 2xx status is not enough).  The
    POST is tried exactly when the GET is answered with another status or
    raises [HTTPStatusError]; a GET that fails in any other way (a
    connection error, a timeout) makes the check fail after that one
    request. *)
Theorem n8n_health_check_healthy_iff :
  forall self get_reply post_reply now,
    let status := fst (N8NHealth.health_check self get_reply post_reply now) in
    let requests := snd (N8NHealth.health_check self get_reply post_reply now) in
    let get_is_enough :=
      exists r, get_reply = Response r
                /\ (status_code r = 200 \/ status_code r = 405) in
    let post_is_tried :=
      (exists r, get_reply = Response r
                 /\ status_code r <> 200 /\ status_code r <> 405)
      \/ (exists e, get_reply = NoResponse e
                    /\ exn_class e = "HTTPStatusError") in
    (AgentsUtil.healthy status = true <->
     get_is_enough
     \/ (post_is_tried
         /\ exists r, post_reply = Response r /\ status_code r = 200))
    /\ (List.length requests = 2%nat <-> post_is_tried)
    /\ (List.length requests = 1%nat <-> ~ post_is_tried)
    /\ AgentsUtil.checked_at status = now.
Proof.
  intros self get_reply post_reply now. cbv zeta.
  unfold N8NHealth.health_check.
  destruct get_reply as [e|r];
    [destruct (String.eqb_spec (exn_class e) "HTTPStatusError") as [Hc|Hc]
    |destruct (Z.eqb_spec (status_code r) 200) as [H2|H2];
     [|destruct (Z.eqb_spec (status_code r) 405) as [H4|H4]]];
    cbn [orb];
    try (destruct post_reply as [e'|r'];
         [|destruct (Z.eqb_spec (status_code r') 200) as [Hp|Hp]]);
    cbn; repeat split; intros;
    repeat match goal with
      | H : exists _, _ |- _ => destruct H
      | H : _ /\ _ |- _ => destruct H
      | H : _ \/ _ |- _ => destruct H
      | H : Response _ = Response _ |- _ => injection H as H; subst
      | H : NoResponse _ = NoResponse _ |- _ => injection H as H; subst
      | H : Response _ = NoResponse _ |- _ => discriminate H
      | H : NoResponse _ = Response _ |- _ => discriminate H
      end;
    try discriminate; try congruence; try lia;
    try (intros Hx;
         repeat match goal with
           | H : exists _, _ |- _ => destruct H
           | H : _ /\ _ |- _ => destruct H
           | H : _ \/ _ |- _ => destruct H
           | H : Response _ = Response _ |- _ => injection H as H; subst
           | H : NoResponse _ = NoResponse _ |- _ => injection H as H; subst
           | H : Response _ = NoResponse _ |- _ => discriminate H
           | H : NoResponse _ = Response _ |- _ => discriminate H
           end; congruence);
    try (exfalso;
         match goal with H : ~ (_ \/ _) |- _ => apply H end; eauto 12; fail);
    eauto 12.
Qed.
